(** * infdriven: session state machine and score engine of [app.py]

    A shallow embedding of the Streamlit impression tracker.  The script keeps
    its whole state in [st.session_state]; the two button callbacks
    ([begin_callback], [next_callback]) and the three pages mutate it.

    Modelling choices.
    - The score engine is given twice.  [Binary64.compute_level] computes
      on binary64 floats, as the interpreter does on slider values: [abs],
      [-], [+] and [/] round, and a comparison with a NaN is false.
      [Score.compute_level] is the same function over exact rationals [Q];
      the session (slider values, responses, rows) is stated over [Q], and
      the results about it do not depend on rounding.
    - Python integers ([idx], list indices, levels) are [Z].
    - [st.session_state] is a record for the fixed keys plus a finite map
      [gmap Z Q] for the dynamic keys [slider_{i}].
    - Callbacks and pages run in a state-and-exception monad: a raised
      exception leaves the mutations made before it in place, as in Python.
    - The outside world is an explicit input: the HTTP endpoint is a function
      from the request parameters to a reply, the random source a sequence of
      raw draws.  The cache in front of the fetch and Streamlit's own
      housekeeping of widget keys are left out. *)

From Stdlib Require Import QArith Qabs Lqa ZArith String List Lia Permutation.
From Stdlib Require Import Floats.
From stdpp Require Import gmap strings list fin_maps.

(** ** Python helpers *)

Module Py.

(** Exceptions the modelled code can raise. *)
Inductive exn : Type :=
| ConnectionError
| HTTPError
| KeyError
| IndexError
| TypeError
| ValueError.

Inductive outcome (A : Type) : Type :=
| Ok (a : A)
| Raise (e : exn).
Arguments Ok {A} a.
Arguments Raise {A} e.

(** [len(l)] *)
Definition len {A : Type} (l : list A) : Z := Z.of_nat (length l).

(** [l[i]]: negative indices count from the end, out of range raises. *)
Definition getitem {A : Type} (l : list A) (i : Z) : outcome A :=
  let j := if (i <? 0)%Z then (i + len l)%Z else i in
  if (j <? 0)%Z then Raise IndexError
  else match l !! Z.to_nat j with
       | Some x => Ok x
       | None => Raise IndexError
       end.

(** Truth value of a string: non-empty. *)
Definition truthy (s : string) : bool :=
  match s with
  | EmptyString => false
  | String _ _ => true
  end.

(** [sum(l)]: left to right, starting from 0. *)
Definition sum (l : list Q) : Q := fold_left Qplus l 0%Q.

(** [x > y] and [x >= y] on numbers. *)
Definition gt (x y : Q) : bool := negb (Qle_bool x y).
Definition ge (x y : Q) : bool := Qle_bool y x.

End Py.

(** ** ScoreEngine: [compute_level] *)

Module Score.
Import Py.

Definition compute_level (start : Q) (responses : list Q) : Z * string :=
  let deltas := map (fun r => Qabs (r - start)) responses in
  let avg :=
    match deltas with
    | [] => 0%Q
    | _ :: _ => (sum deltas / inject_Z (len deltas))%Q
    end in
  if gt avg 20 then (1%Z, "Flip-Flopper"%string)
  else if gt avg 10 then (2%Z, "Malleable Mind"%string)
  else if gt avg 5 then (3%Z, "Moderately Moved"%string)
  else if gt avg 2 then (4%Z, "Steady Supporter"%string)
  else if ge start 80 then (5%Z, "Buttigieg Stan"%string)
  else (4%Z, "Steady Supporter"%string).

(** *** The specification's reading, for comparison with the code *)

(** [avgDelta]: the mean of [abs(responses[i] - startingScore)], or 0 when
    there are no responses. *)
Definition spec_total (start : Q) (responses : list Q) : Q :=
  fold_right (fun r acc => (Qabs (r - start) + acc)%Q) 0%Q responses.

Definition spec_avgDelta (start : Q) (responses : list Q) : Q :=
  match responses with
  | [] => 0%Q
  | _ :: _ => (spec_total start responses / inject_Z (len responses))%Q
  end.

End Score.

(** ** ScoreEngine in binary64: [compute_level] as the interpreter runs it *)

Module Binary64.
Import Py.

(** [sum(l)] of floats: binary64 additions from 0, left to right.  This is
    the plain accumulation loop; the compensated loop that CPython 3.12 and
    later run on floats is not modelled. *)
Definition sum (l : list float) : float := fold_left PrimFloat.add l 0%float.

(** [len(l)] as the float that [/] converts it to. *)
Definition count {A : Type} (l : list A) : float :=
  PrimFloat.of_uint63 (Uint63.of_Z (len l)).

(** [x > y] and [x >= y] on floats: false when either side is not a
    number. *)
Definition gt (x y : float) : bool := PrimFloat.ltb y x.
Definition ge (x y : float) : bool := PrimFloat.leb y x.

Definition compute_level (start : float) (responses : list float) : Z * string :=
  let deltas := map (fun r => PrimFloat.abs (r - start)%float) responses in
  let avg :=
    match deltas with
    | [] => 0%float
    | _ :: _ => (sum deltas / count deltas)%float
    end in
  if gt avg 20 then (1%Z, "Flip-Flopper"%string)
  else if gt avg 10 then (2%Z, "Malleable Mind"%string)
  else if gt avg 5 then (3%Z, "Moderately Moved"%string)
  else if gt avg 2 then (4%Z, "Steady Supporter"%string)
  else if ge start 80 then (5%Z, "Buttigieg Stan"%string)
  else (4%Z, "Steady Supporter"%string).

(** *** The specification's reading, for comparison with the code *)

(** [avgDelta]: the mean of [abs(responses[i] - startingScore)], or 0 when
    there are no responses; each delta is added to the running total as it
    is formed, and the total is divided by the number of responses. *)
Definition spec_avgDelta (start : float) (responses : list float) : float :=
  match responses with
  | [] => 0%float
  | _ :: _ =>
      (fold_left (fun total r => total + PrimFloat.abs (r - start)) responses 0
       / count responses)%float
  end.



End Binary64.

(** ** ExposureProvider: [fetch_live_exposures] *)

Module Provider.
Import Py.

(** One element of the reply's [articles] array.  A field is [None] when
    the key is absent or holds null; both are falsy in the source. *)
Record Article : Type := mkArticle {
  title : option string;
  description : option string;
  content : option string
}.

Record Exposure : Type := mkExposure {
  headline : string;
  summary : string
}.

(** What [requests.get] yields: it raises, or returns a response with a
    status code and a JSON body whose [articles] key may be missing.  The
    body is taken to be an object whose [articles], when present, is a list
    of objects with string or null fields; bodies on which [r.json()] or the
    loop itself would raise are outside this type. *)
Inductive Reply : Type :=
| NoReply
| Response (status_code : Z) (articles : option (list Article)).

(** The endpoint, as a function of the request's [qInTitle] and [pageSize]. *)
Definition Endpoint : Type := string -> Z -> Reply.

(** [r.raise_for_status()]: client and server error codes raise. *)
Definition raise_for_status (status_code : Z) : outcome unit :=
  if ((400 <=? status_code) && (status_code <? 600))%Z
  then Raise HTTPError else Ok tt.

(** [a or b] where [a] comes from [dict.get]. *)
Definition or_else (a : option string) (b : string) : string :=
  match a with
  | Some s => if truthy s then s else b
  | None => b
  end.

(** One iteration of the loop over [articles]. *)
Definition keep_usable (exps : list Exposure) (art : Article) : list Exposure :=
  let title := or_else (title art) EmptyString in
  let desc := or_else (description art) (or_else (content art) EmptyString) in
  if truthy title && truthy desc
  then exps ++ [mkExposure title desc]
  else exps.

Definition fetch_live_exposures
    (get : Endpoint) (query : string) (max_articles : Z) : outcome (list Exposure) :=
  match get query max_articles with
  | NoReply => Raise ConnectionError
  | Response status_code body =>
      match raise_for_status status_code with
      | Raise e => Raise e
      | Ok _ =>
          let articles := default [] body in
          Ok (fold_left keep_usable articles [])
      end
  end.

End Provider.

(** ** [random.sample] *)

Module Random.
Import Py.

(** The random source: the raw value behind the [i]-th call of
    [randbelow]; [randbelow(n)] reduces it below [n]. *)
Definition source : Type := nat -> nat.

Definition randbelow (src : source) (i n : nat) : nat := src i mod n.

(** The selection loop of [sample] over a pool: pick a position among the
    live prefix of the pool, then move the last live item into the
    vacancy.  [i] counts the draws made so far.  (For large populations
    CPython tracks the chosen positions in a set instead; the result is
    again a selection of [k] distinct positions.) *)
Fixpoint sample_pool {A : Type} (src : source) (pool : list A) (i k : nat) : list A :=
  match k with
  | O => []
  | S k' =>
      let n := length pool in
      let j := randbelow src i n in
      match pool !! j, pool !! (n - 1)%nat with
      | Some x, Some y =>
          x :: sample_pool src (take (n - 1) (<[j := y]> pool)) (S i) k'
      | _, _ => []
      end
  end.

(** [random.sample(population, k)]: refuses a sample larger than the
    population or negative. *)
Definition sample {A : Type} (src : source) (population : list A) (k : Z)
  : outcome (list A) :=
  if ((0 <=? k) && (k <=? len population))%Z
  then Ok (sample_pool src population 0 (Z.to_nat k))
  else Raise ValueError.

End Random.

(** ** SessionStateMachine: [st.session_state], callbacks and pages *)

Module Session.
Import Py Provider.

Definition CANDIDATE : string := "Pete Buttigieg".
Definition NUM_EXPOSURES : Z := 10.

Inductive Phase : Type := init | survey | done.

Record state : Type := mkState {
  user_id : string;
  phase : Phase;
  start_slider : Q;
  start_score : option Q;
  exposures : list Exposure;
  idx : Z;
  responses : list Q;
  sliders : gmap Z Q
}.

(** The session state defaults, for a fresh session with the given uuid. *)
Definition defaults (uid : string) : state :=
  {| user_id := uid;
     phase := init;
     start_slider := 50%Q;
     start_score := None;
     exposures := [];
     idx := 0%Z;
     responses := [];
     sliders := ∅ |}.

(** Field updates. *)
Definition set_phase (p : Phase) (s : state) : state :=
  mkState (user_id s) p (start_slider s) (start_score s) (exposures s)
          (idx s) (responses s) (sliders s).
Definition set_start_slider (v : Q) (s : state) : state :=
  mkState (user_id s) (phase s) v (start_score s) (exposures s)
          (idx s) (responses s) (sliders s).
Definition set_start_score (v : option Q) (s : state) : state :=
  mkState (user_id s) (phase s) (start_slider s) v (exposures s)
          (idx s) (responses s) (sliders s).
Definition set_exposures (es : list Exposure) (s : state) : state :=
  mkState (user_id s) (phase s) (start_slider s) (start_score s) es
          (idx s) (responses s) (sliders s).
Definition set_idx (i : Z) (s : state) : state :=
  mkState (user_id s) (phase s) (start_slider s) (start_score s) (exposures s)
          i (responses s) (sliders s).
Definition set_responses (rs : list Q) (s : state) : state :=
  mkState (user_id s) (phase s) (start_slider s) (start_score s) (exposures s)
          (idx s) rs (sliders s).
Definition set_slider (i : Z) (v : Q) (s : state) : state :=
  mkState (user_id s) (phase s) (start_slider s) (start_score s) (exposures s)
          (idx s) (responses s) (<[i := v]> (sliders s)).

(** *** The monad of callbacks: state that survives a raised exception *)

Definition M (A : Type) : Type := state -> outcome A * state.

Definition ret {A : Type} (a : A) : M A := fun s => (Ok a, s).

Definition bind {A B : Type} (m : M A) (k : A -> M B) : M B :=
  fun s =>
    match m s with
    | (Ok a, s') => k a s'
    | (Raise e, s') => (Raise e, s')
    end.

Definition read : M state := fun s => (Ok s, s).
Definition modify (f : state -> state) : M unit := fun s => (Ok tt, f s).
Definition lift {A : Type} (o : outcome A) : M A := fun s => (o, s).

Declare Scope session_scope.
Delimit Scope session_scope with session.
Notation "'do' x <- m ;; k" := (bind m (fun x => k))
  (at level 10, x name, m at level 99, k at level 200) : session_scope.
Notation "'run' m ;; k" := (bind m (fun _ => k))
  (at level 10, m at level 99, k at level 200) : session_scope.
Local Open Scope session_scope.

(** [st.session_state[f"slider_{i}"]] *)
Definition slider_item (i : Z) : M Q :=
  do s <- read ;;
  match sliders s !! i with
  | Some v => ret v
  | None => lift (Raise KeyError)
  end.

(** [float(x)] of a number or [None]. *)
Definition float (x : option Q) : outcome Q :=
  match x with
  | Some v => Ok v
  | None => Raise TypeError
  end.

Definition begin_callback (get : Endpoint) (src : Random.source) : M unit :=
  do s <- read ;;
  run modify (set_start_score (Some (start_slider s))) ;;
  do live <- lift (fetch_live_exposures get CANDIDATE 10) ;;
  do sampled <- lift (Random.sample src live (Z.min (len live) NUM_EXPOSURES)) ;;
  run modify (set_exposures sampled) ;;
  run modify (set_idx 0) ;;
  run modify (set_responses []) ;;
  modify (set_phase survey).

Definition next_callback : M unit :=
  do s <- read ;;
  let i := idx s in
  do v <- slider_item i ;;
  run modify (fun s => set_responses (responses s ++ [v]) s) ;;
  run modify (fun s => set_idx (idx s + 1) s) ;;
  do s <- read ;;
  if (idx s >=? len (exposures s))%Z
  then modify (set_phase done)
  else ret tt.

(** What the survey page shows. *)
Record view : Type := mkView {
  story_number : Z;
  story_count : Z;
  shown_headline : string;
  shown_summary : string;
  slider_value : Q
}.

(** The survey page: it reads the current exposure, pre-fills the slider
    key on the first visit and shows the slider at its stored value. *)
Definition survey_page : M view :=
  do s <- read ;;
  let i := idx s in
  do exp <- lift (getitem (exposures s) i) ;;
  run (match sliders s !! i with
       | Some _ => ret tt
       | None =>
           do x <- (if (i =? 0)%Z then ret (start_score s)
                    else do r <- lift (getitem (responses s) (-1)) ;;
                         ret (Some r)) ;;
           do v <- lift (float x) ;;
           modify (set_slider i v)
       end) ;;
  do shown <- slider_item i ;;
  ret (mkView (i + 1) (len (exposures s)) (headline exp) (summary exp) shown).

(** *** PayloadAssembler: the loop of the final page *)

Record row : Type := mkRow {
  row_user_id : string;
  initial_score : option Q;
  snippet_i : Z;
  row_headline : string;
  row_summary : string;
  rating : Q
}.

(** [for i, e in enumerate(exposures): payload.append({..., resp[i]})] *)
Fixpoint payload_loop (uid : string) (start : option Q) (resp : list Q)
    (i : Z) (es : list Exposure) (payload : list row) : outcome (list row) :=
  match es with
  | [] => Ok payload
  | e :: es' =>
      match getitem resp i with
      | Raise x => Raise x
      | Ok r =>
          payload_loop uid start resp (i + 1) es'
            (payload ++ [mkRow uid start i (headline e) (summary e) r])
      end
  end.

Definition build_payload (s : state) : outcome (list row) :=
  payload_loop (user_id s) (start_score s) (responses s) 0 (exposures s) [].

(** *** Runs of a session *)

(** One interaction: the participant moves a slider or presses a button,
    or the script renders the survey page.  A callback that raises leaves
    the state it had reached. *)
Inductive step : state -> state -> Prop :=
| step_move_start (v : Q) (s : state) :
    phase s = init ->
    step s (set_start_slider v s)
| step_begin (get : Endpoint) (src : Random.source) (s : state) :
    phase s = init ->
    step s (snd (begin_callback get src s))
| step_render (s : state) :
    phase s = survey ->
    step s (snd (survey_page s))
| step_move_slider (v : Q) (s : state) :
    phase s = survey ->
    is_Some (sliders s !! idx s) ->
    step s (set_slider (idx s) v s)
| step_next (s : state) :
    phase s = survey ->
    step s (snd (next_callback s)).

Inductive reachable : state -> Prop :=
| reach_defaults (uid : string) : reachable (defaults uid)
| reach_step (s s' : state) : reachable s -> step s s' -> reachable s'.

(** What every reachable state satisfies. *)
Definition session_inv (s : state) : Prop :=
  len (responses s) = idx s /\
  (phase s <> init -> is_Some (start_score s)) /\
  (phase s = survey -> exposures s <> [] -> (idx s < len (exposures s))%Z).

(** *** The specification's reading of the payload, for comparison *)

(** One row per pair of an exposure and the rating at the same position;
    pairing stops at the shorter of the two sequences. *)
Definition spec_rows (s : state) : list row :=
  imap (fun i er =>
          mkRow (user_id s) (start_score s) (Z.of_nat i)
                (headline (fst er)) (summary (fst er)) (snd er))
       (zip (exposures s) (responses s)).

End Session.

(** ** Concrete sessions *)

Module Examples.
Import Py Provider Session.

(** Five articles, three of them with a title and a description or
    content. *)
Definition five_articles : list Article :=
  [ mkArticle (Some "Mayor visits"%string) (Some "A visit"%string) None;
    mkArticle (Some EmptyString) (Some "No title"%string) None;
    mkArticle (Some "Town hall"%string) None (Some "Full text"%string);
    mkArticle None (Some "Null title"%string) None;
    mkArticle (Some "Poll"%string) (Some EmptyString) (Some "Numbers"%string) ].

Definition endpoint_three : Endpoint :=
  fun _ page_size => Response 200 (Some (take (Z.to_nat page_size) five_articles)).

(** A successful reply none of whose articles is usable. *)
Definition endpoint_none_usable : Endpoint :=
  fun _ _ => Response 200
               (Some [ mkArticle (Some "Headline only"%string) None None;
                       mkArticle None (Some "Text only"%string) None ]).

(** A server error. *)
Definition endpoint_failing : Endpoint :=
  fun _ _ => Response 500 None.

Definition draws : Random.source := fun i => (7 * i + 2)%nat.

Definition fresh : state := defaults "session-1".

(** Begin, first page, slider moved to 62, next. *)
Definition begun : state := snd (begin_callback endpoint_three draws fresh).
Definition shown : state := snd (survey_page begun).
Definition moved : state := set_slider (idx shown) 62 shown.
Definition advanced : state := snd (next_callback moved).

(** The same session two exposures later, before the last one is rated. *)
Definition second_rated : state :=
  snd (next_callback (set_slider 1 40 (snd (survey_page advanced)))).
Definition last_shown : state := snd (survey_page second_rated).

Definition story : Exposure := mkExposure "Mayor visits" "A visit".

(** A state with one exposure and two ratings, as no run produces. *)
Definition surplus_ratings : state :=
  set_responses [10%Q; 20%Q] (set_exposures [story] fresh).

End Examples.

(** ** The rest of the script: levels and labels, usable articles, the final
    page and the page dispatch *)

Module Labels.

(** The label [compute_level] attaches to each level. *)
Definition label_of (level : Z) : string :=
  if (level =? 1)%Z then "Flip-Flopper"
  else if (level =? 2)%Z then "Malleable Mind"
  else if (level =? 3)%Z then "Moderately Moved"
  else if (level =? 4)%Z then "Steady Supporter"
  else "Buttigieg Stan".

End Labels.

Module Usable.
Import Py Provider.

(** The exposure one article contributes to the loop of
    [fetch_live_exposures], if any. *)
Definition exposure_of (art : Article) : option Exposure :=
  let title := or_else (title art) EmptyString in
  let desc := or_else (description art) (or_else (content art) EmptyString) in
  if truthy title && truthy desc then Some (mkExposure title desc) else None.

(** A field that is present and not empty. *)
Definition filled (field : option string) (s : string) : Prop :=
  field = Some s /\ truthy s = true.

(** A field that is absent, null or empty. *)
Definition blank (field : option string) : Prop :=
  or_else field EmptyString = EmptyString.

End Usable.

Module Final.
Import Py Provider Score Session.

(** The final page can fail with a Python exception of the callbacks, or
    with a division by zero. *)
Inductive failure : Type :=
| Raised (e : exn)
| ZeroDivisionError.

Inductive result (A : Type) : Type :=
| Shown (a : A)
| Crashed (f : failure).
Arguments Shown {A} a.
Arguments Crashed {A} f.

(** [x / n] for a number and an integer. *)
Definition truediv (x : Q) (n : Z) : result Q :=
  if (n =? 0)%Z then Crashed ZeroDivisionError
  else Shown (x / inject_Z n)%Q.

(** What [supabase...insert(payload).execute()] does: it raises, or returns
    a result whose [error] attribute may be missing or [None]. *)
Inductive insert_reply : Type :=
| InsertRaised
| InsertReturned (error : option string).

Definition Store : Type := list row -> insert_reply.

(** The message shown after the insert. *)
Inductive notice : Type :=
| exception_when_saving
| failed_to_save
| responses_saved.

Record final_view : Type := mkFinal {
  shown_level : Z;
  shown_label : string;
  shown_start : Q;
  shown_end : Q;
  shown_avg : Q;
  shown_notice : notice;
  download : list row
}.

(** The final page: score line, summary line, payload, insert, download. *)
Definition final_page (db : Store) (s : state) : result final_view :=
  match start_score s with
  | None => Crashed (Raised TypeError)
  | Some start =>
      let resp := responses s in
      let '(level, label) := compute_level start resp in
      match getitem resp (-1) with
      | Raise e => Crashed (Raised e)
      | Ok last =>
          match truediv (sum (map (fun r => Qabs (r - start)) resp)) (len resp) with
          | Crashed f => Crashed f
          | Shown avg =>
              match build_payload s with
              | Raise e => Crashed (Raised e)
              | Ok payload =>
                  let shown :=
                    match db payload with
                    | InsertRaised => exception_when_saving
                    | InsertReturned error =>
                        if truthy (or_else error EmptyString)
                        then failed_to_save
                        else responses_saved
                    end in
                  Shown (mkFinal level label start last avg shown payload)
              end
          end
      end
  end.

(** What one run of the script renders. *)
Inductive page : Type :=
| key_missing
| init_page (slider : Q)
| survey_view (v : view)
| final_view_page (v : final_view).

(** One run of the script on an existing session: the key check, then the
    page of the current phase. *)
Definition script (NEWSAPI_KEY : option string) (db : Store) (s : state)
  : result page * state :=
  if negb (truthy (or_else NEWSAPI_KEY EmptyString))
  then (Shown key_missing, s)
  else
    match phase s with
    | init => (Shown (init_page (start_slider s)), s)
    | survey =>
        match survey_page s with
        | (Ok v, s') => (Shown (survey_view v), s')
        | (Raise e, s') => (Crashed (Raised e), s')
        end
    | done =>
        (match final_page db s with
         | Shown v => Shown (final_view_page v)
         | Crashed f => Crashed f
         end, s)
    end.

(** The order of the phases. *)
Definition phase_rank (p : Phase) : nat :=
  match p with
  | init => 0
  | survey => 1
  | done => 2
  end.

(** What every reachable state satisfies, beyond [session_inv]. *)
Definition run_inv (s : state) : Prop :=
  session_inv s /\
  (phase s = init -> sliders s = ∅) /\
  (phase s = survey -> exposures s = [] -> sliders s !! idx s = None) /\
  (phase s = done -> idx s = len (exposures s) /\ exposures s <> []).

End Final.

(** ** Scripted participants *)

Module Runs.
Import Py Provider Session Final.

(** The page is rendered and Next is pressed without touching the slider. *)
Definition click_next (s : state) : state :=
  snd (next_callback (snd (survey_page s))).

Definition click_through (n : nat) (s : state) : state :=
  Nat.iter n click_next s.

(** The session of [Examples] after its last rating. *)
Definition finished : state := snd (next_callback Examples.last_shown).

(** A store that accepts the rows and one that is unreachable. *)
Definition store_ok : Store := fun _ => InsertReturned None.

End Runs.

(** * Properties of the score engine *)

Section ScoreEngine.
Import Py Score.

Lemma gt_false (x y : Q) : gt x y = false <-> (x <= y)%Q.
Proof.
  unfold gt. rewrite negb_false_iff. apply Qle_bool_iff.
Qed.

#[local] Instance gt_proper : Proper (Qeq ==> Qeq ==> eq) gt.
Proof. intros x x' Hx y y' Hy. unfold gt. now rewrite Hx, Hy. Qed.

(** [sum] accumulates from the left; the accumulator can be pulled out. *)
Lemma fold_left_Qplus_acc (l : list Q) (a : Q) :
  (fold_left Qplus l a == a + fold_left Qplus l 0)%Q.
Proof.
  revert a. induction l as [|x l IH]; intros a; simpl.
  - ring.
  - rewrite (IH (a + x)%Q), (IH (0 + x)%Q). ring.
Qed.

Lemma sum_cons (x : Q) (l : list Q) : (sum (x :: l) == x + sum l)%Q.
Proof.
  unfold sum. simpl. rewrite fold_left_Qplus_acc. ring.
Qed.

Lemma sum_deltas_total (start : Q) (rs : list Q) :
  (sum (map (fun r => Qabs (r - start)) rs) == spec_total start rs)%Q.
Proof.
  induction rs as [|r rs IH].
  - reflexivity.
  - cbn [map spec_total fold_right]. rewrite sum_cons.
    fold (spec_total start rs). now rewrite IH.
Qed.

(** The average the code computes is the specification's [avgDelta]. *)
Lemma code_avg_spec (start : Q) (rs : list Q) :
  let deltas := map (fun r => Qabs (r - start)) rs in
  (match deltas with
   | [] => 0
   | _ :: _ => sum deltas / inject_Z (len deltas)
   end == spec_avgDelta start rs)%Q.
Proof.
  destruct rs as [|r rs]; [reflexivity|].
  cbv zeta. cbn [map spec_avgDelta].
  change (Qabs (r - start) :: map (fun r0 => Qabs (r0 - start)) rs)
    with (map (fun r0 => Qabs (r0 - start)) (r :: rs)).
  rewrite sum_deltas_total. unfold len. now rewrite length_map.
Qed.

(** The if-chain of [compute_level], as a function of the average alone. *)
Lemma compute_level_chain (start : Q) (rs : list Q) :
  compute_level start rs =
  let avg := spec_avgDelta start rs in
  if gt avg 20 then (1%Z, "Flip-Flopper"%string)
  else if gt avg 10 then (2%Z, "Malleable Mind"%string)
  else if gt avg 5 then (3%Z, "Moderately Moved"%string)
  else if gt avg 2 then (4%Z, "Steady Supporter"%string)
  else if ge start 80 then (5%Z, "Buttigieg Stan"%string)
  else (4%Z, "Steady Supporter"%string).
Proof.
  unfold compute_level. cbv zeta.
  pose proof (code_avg_spec start rs) as H. cbv zeta in H.
  now rewrite !H.
Qed.


(** C2 (as stated, refuted).  [compute_level 50 [55; 50]] has deltas 5 and
    0 and average 2.5, but the result is not [(3, "Moderately Moved")]:
    2.5 does not exceed 5. *)
Lemma compute_level_50_55_50_not_moderate :
  (spec_avgDelta 50 [55%Q; 50%Q] == 5 # 2)%Q /\
  compute_level 50 [55%Q; 50%Q] <> (3%Z, "Moderately Moved"%string).
Proof.
  split; [reflexivity|]. vm_compute. discriminate.
Qed.

(** C2 (amended).  [compute_level 50 [55; 50]]: the deltas are 5 and 0, the
    average is 2.5, which exceeds 2 but not 5, and the result is
    [(4, "Steady Supporter")]. *)
Theorem compute_level_50_55_50_steady :
  map (fun r => Qabs (r - 50)) [55%Q; 50%Q] = [5%Q; 0%Q] /\
  (spec_avgDelta 50 [55%Q; 50%Q] == 5 # 2)%Q /\
  gt (spec_avgDelta 50 [55%Q; 50%Q]) 5 = false /\
  gt (spec_avgDelta 50 [55%Q; 50%Q]) 2 = true /\
  compute_level 50 [55%Q; 50%Q] = (4%Z, "Steady Supporter"%string).
Proof.
  repeat split; reflexivity.
Qed.

End ScoreEngine.

(** * The score engine in binary64 *)

Section ScoreEngineBinary64.
Import Py.

Lemma binary64_sum_deltas (start : float) (rs : list float) (total : float) :
  fold_left PrimFloat.add
    (map (fun r => PrimFloat.abs (r - start)%float) rs) total
  = fold_left (fun acc r => (acc + PrimFloat.abs (r - start))%float) rs total.
Proof.
  revert total. induction rs as [|r rs IH]; intros total; cbn [map fold_left].
  - reflexivity.
  - apply IH.
Qed.

(** The average the code computes is the specification's [avgDelta]. *)
Lemma binary64_avg_spec (start : float) (rs : list float) :
  match map (fun r => PrimFloat.abs (r - start)%float) rs with
  | [] => 0%float
  | _ :: _ =>
      (Binary64.sum (map (fun r => PrimFloat.abs (r - start)%float) rs)
       / Binary64.count (map (fun r => PrimFloat.abs (r - start)%float) rs))%float
  end = Binary64.spec_avgDelta start rs.
Proof.
  destruct rs as [|r rs]; [reflexivity|].
  cbn [map]. unfold Binary64.spec_avgDelta, Binary64.sum, Binary64.count, len.
  change (PrimFloat.abs (r - start)%float
          :: map (fun r0 => PrimFloat.abs (r0 - start)%float) rs)
    with (map (fun r0 => PrimFloat.abs (r0 - start)%float) (r :: rs)).
  now rewrite binary64_sum_deltas, length_map.
Qed.


(** At the integer inputs of the specification's examples the binary64
    computation and the exact one agree. *)
Lemma binary64_examples :
  Binary64.compute_level 50 [55; 50]%float = Score.compute_level 50 [55%Q; 50%Q] /\
  Binary64.compute_level 50 [75; 75]%float = Score.compute_level 50 [75%Q; 75%Q] /\
  Binary64.compute_level 50 [] = Score.compute_level 50 [] /\
  Binary64.compute_level 90 [] = Score.compute_level 90 [].
Proof. repeat split; vm_compute; reflexivity. Qed.




(** The order of binary64 numbers: below is kept by at-most. *)
Lemma SFltb_leb_trans (c a b : spec_float) :
  SFltb c a = true -> SFleb a b = true -> SFltb c b = true.
Proof.
  unfold SFltb, SFleb.
  destruct c as [sc|sc| |sc mc ec], a as [sa|sa| |sa ma ea],
           b as [sb|sb| |sb mb eb];
    cbn;
    repeat match goal with s : bool |- _ => destruct s end; cbn;
    try discriminate; try reflexivity;
    repeat match goal with
           | |- context [Z.compare ?x ?y] =>
               destruct (Z.compare_spec x y); cbn
           end;
    try discriminate; try reflexivity; try lia; subst;
    repeat match goal with
           | |- context [Pos.compare_cont _ ?x ?y] =>
               change (Pos.compare_cont Eq x y) with (Pos.compare x y);
               destruct (Pos.compare_spec x y); cbn
           end;
    try discriminate; try reflexivity; try lia.
Qed.

Lemma binary64_gt_le (c a b : float) :
  Binary64.gt a c = true -> PrimFloat.leb a b = true -> Binary64.gt b c = true.
Proof.
  unfold Binary64.gt. rewrite !FloatAxioms.ltb_spec, FloatAxioms.leb_spec.
  apply SFltb_leb_trans.
Qed.

(** X2. In binary64, a larger average swing never gives a higher level:
    between two response lists rated against the same starting score, the
    one whose computed mean absolute delta is at least the other's has the
    lower or equal level. *)
Theorem binary64_level_antitone (start : float) (calm wild : list float) :
  PrimFloat.leb (Binary64.spec_avgDelta start calm)
                (Binary64.spec_avgDelta start wild) = true ->
  (fst (Binary64.compute_level start wild)
   <= fst (Binary64.compute_level start calm))%Z.
Proof.
  intros Hle. unfold Binary64.compute_level. cbv zeta.
  rewrite !binary64_avg_spec.
  set (a := Binary64.spec_avgDelta start calm) in *.
  set (b := Binary64.spec_avgDelta start wild) in *.
  pose proof (fun c H => binary64_gt_le c a b H Hle) as Hup.
  destruct (Binary64.gt a 20) eqn:A20; [rewrite (Hup _ A20); cbn; lia|].
  destruct (Binary64.gt a 10) eqn:A10.
  { rewrite (Hup _ A10). destruct (Binary64.gt b 20); cbn; lia. }
  destruct (Binary64.gt a 5) eqn:A5.
  { rewrite (Hup _ A5).
    destruct (Binary64.gt b 20), (Binary64.gt b 10); cbn; lia. }
  destruct (Binary64.gt a 2) eqn:A2.
  { rewrite (Hup _ A2).
    destruct (Binary64.gt b 20), (Binary64.gt b 10), (Binary64.gt b 5);
      cbn; lia. }
  destruct (Binary64.gt b 20), (Binary64.gt b 10), (Binary64.gt b 5),
           (Binary64.gt b 2), (Binary64.ge start 80); cbn; lia.
Qed.

Lemma binary64_level_antitone_witness :
  PrimFloat.leb (Binary64.spec_avgDelta 50 [52; 49]%float)
                (Binary64.spec_avgDelta 50 [80; 20]%float) = true /\
  (fst (Binary64.compute_level 50 [80; 20]%float)
   <= fst (Binary64.compute_level 50 [52; 49]%float))%Z.
Proof.
  assert (H : PrimFloat.leb (Binary64.spec_avgDelta 50 [52; 49]%float)
                (Binary64.spec_avgDelta 50 [80; 20]%float) = true)
    by (vm_compute; reflexivity).
  split; [exact H|].
  exact (binary64_level_antitone 50%float [52; 49]%float [80; 20]%float H).
Defined.

End ScoreEngineBinary64.

(** * Properties of [random.sample] *)

Section SampleFacts.
Import Py Random.
Context {A : Type}.
Implicit Types (pool front : list A) (src : source).

(** Moving the last live item into the vacancy keeps every item but the
    one picked. *)
Lemma pool_vacate_perm front (y x : A) (j : nat) :
  (front ++ [y]) !! j = Some x ->
  x :: take (length front) (<[j := y]> (front ++ [y])) ≡ₚ front ++ [y].
Proof.
  intros Hj.
  destruct (decide (j < length front)%nat) as [Hlt|Hge].
  - rewrite lookup_app_l in Hj by exact Hlt.
    rewrite insert_app_l by exact Hlt.
    rewrite take_app_length' by (now rewrite length_insert).
    rewrite insert_take_drop by exact Hlt.
    rewrite <- (take_drop_middle front j x Hj) at 3.
    set (l1 := take j front). set (l2 := drop (S j) front).
    rewrite (Permutation_app_comm (l1 ++ x :: l2) [y]). cbn [app].
    rewrite <- !Permutation_middle. apply perm_swap.
  - assert (j = length front) as ->.
    { apply lookup_lt_Some in Hj. rewrite length_app in Hj. simpl in Hj. lia. }
    rewrite list_lookup_middle in Hj by reflexivity.
    injection Hj as <-.
    rewrite list_insert_id by (now apply list_lookup_middle).
    rewrite take_app_length.
    apply Permutation_cons_append.
Qed.

(** A non-empty pool splits at its last item. *)
Lemma pool_last pool (y : A) :
  pool !! (length pool - 1)%nat = Some y ->
  exists front, pool = front ++ [y].
Proof.
  intros Hy. pose proof (lookup_lt_Some _ _ _ Hy) as Hlt.
  exists (take (length pool - 1) pool).
  rewrite <- (take_drop_middle pool _ y Hy) at 1.
  replace (S (length pool - 1)) with (length pool) by lia.
  now rewrite drop_all.
Qed.

Lemma sample_pool_step_perm pool (x y : A) (j : nat) :
  pool !! j = Some x ->
  pool !! (length pool - 1)%nat = Some y ->
  x :: take (length pool - 1) (<[j := y]> pool) ≡ₚ pool.
Proof.
  intros Hx Hy. destruct (pool_last pool y Hy) as [front ->].
  replace (length (front ++ [y]) - 1)%nat with (length front)
    by (rewrite length_app; simpl; lia).
  now apply pool_vacate_perm.
Qed.

(** The sample is drawn without replacement: it is a sub-multiset of the
    population. *)
Lemma sample_pool_submseteq src (k : nat) : forall pool (i : nat),
  sample_pool src pool i k ⊆+ pool.
Proof.
  induction k as [|k IH]; intros pool i; cbn [sample_pool].
  - apply submseteq_nil_l.
  - cbv zeta.
    destruct (pool !! randbelow src i (length pool)) as [x|] eqn:Hx;
      [|apply submseteq_nil_l].
    destruct (pool !! (length pool - 1)%nat) as [y|] eqn:Hy;
      [|apply submseteq_nil_l].
    transitivity
      (x :: take (length pool - 1)
              (<[randbelow src i (length pool) := y]> pool)).
    + apply submseteq_skip, IH.
    + apply Permutation_submseteq, sample_pool_step_perm; assumption.
Qed.

Lemma sample_pool_length src (k : nat) : forall pool (i : nat),
  (k <= length pool)%nat ->
  length (sample_pool src pool i k) = k.
Proof.
  induction k as [|k IH]; intros pool i Hk; cbn [sample_pool].
  - reflexivity.
  - cbv zeta.
    assert (Hj : (randbelow src i (length pool) < length pool)%nat).
    { unfold randbelow. apply Nat.mod_upper_bound. lia. }
    destruct (lookup_lt_is_Some_2 pool _ Hj) as [x ->].
    destruct (lookup_lt_is_Some_2 pool (length pool - 1)%nat) as [y ->]; [lia|].
    cbn [length]. f_equal. apply IH.
    rewrite length_take, length_insert. lia.
Qed.

End SampleFacts.

(** * Properties of the session state machine *)

Section SessionFacts.
Import Py Provider Session.
Implicit Types (s : state) (get : Endpoint) (src : Random.source).

Lemma len_nonneg {A : Type} (l : list A) : (0 <= len l)%Z.
Proof. unfold len. lia. Qed.

(** Indexing at a non-negative position is a list lookup. *)
Lemma getitem_of_nat {A : Type} (l : list A) (k : nat) :
  getitem l (Z.of_nat k) =
  match l !! k with Some x => Ok x | None => Raise IndexError end.
Proof.
  unfold getitem.
  destruct (Z.ltb_spec (Z.of_nat k) 0) as [?|_]; [lia|].
  destruct (Z.ltb_spec (Z.of_nat k) 0) as [?|_]; [lia|].
  now rewrite Nat2Z.id.
Qed.

(** [l[-1]] is the last item. *)
Lemma getitem_last {A : Type} (l : list A) (x : A) :
  getitem (l ++ [x]) (-1) = Ok x.
Proof.
  unfold getitem, len. rewrite length_app. cbn [length Z.ltb Z.compare].
  destruct (Z.ltb_spec (-1 + Z.of_nat (length l + 1)) 0) as [?|_]; [lia|].
  replace (Z.to_nat (-1 + Z.of_nat (length l + 1))) with (length l) by lia.
  now rewrite list_lookup_middle.
Qed.

(** The sample size [min(len(live), NUM_EXPOSURES)] is always accepted. *)
Lemma sample_min_ok {A : Type} src (live : list A) :
  Random.sample src live (Z.min (len live) NUM_EXPOSURES) =
  Ok (Random.sample_pool src live 0
        (Z.to_nat (Z.min (len live) NUM_EXPOSURES))).
Proof.
  unfold Random.sample, NUM_EXPOSURES.
  pose proof (len_nonneg live).
  destruct (Z.leb_spec 0 (Z.min (len live) 10)) as [_|?]; [|lia].
  destruct (Z.leb_spec (Z.min (len live) 10) (len live)) as [_|?]; [|lia].
  reflexivity.
Qed.

(** [begin_callback] when the fetch succeeds. *)
Lemma begin_callback_ok get src s (live : list Exposure) :
  fetch_live_exposures get CANDIDATE 10 = Ok live ->
  begin_callback get src s =
  (Ok tt,
   mkState (user_id s) survey (start_slider s) (Some (start_slider s))
     (Random.sample_pool src live 0
        (Z.to_nat (Z.min (len live) NUM_EXPOSURES)))
     0 [] (sliders s)).
Proof.
  intros Hf. unfold begin_callback, bind, read, modify, lift.
  rewrite Hf, sample_min_ok. reflexivity.
Qed.

(** [begin_callback] when the fetch raises: the exception propagates, after
    [start_score] has been assigned. *)
Lemma begin_callback_raise get src s (e : exn) :
  fetch_live_exposures get CANDIDATE 10 = Raise e ->
  begin_callback get src s =
  (Raise e, set_start_score (Some (start_slider s)) s).
Proof.
  intros Hf. unfold begin_callback, bind, read, modify, lift.
  now rewrite Hf.
Qed.

(** [next_callback] when the slider key of the current index exists. *)
Lemma next_callback_ok s (v : Q) :
  sliders s !! idx s = Some v ->
  next_callback s =
  (Ok tt,
   mkState (user_id s)
     (if (idx s + 1 >=? len (exposures s))%Z then done else phase s)
     (start_slider s) (start_score s) (exposures s)
     (idx s + 1) (responses s ++ [v]) (sliders s)).
Proof.
  intros Hv. unfold next_callback, slider_item, bind, read, modify, lift, ret.
  rewrite Hv. cbn.
  destruct (idx s + 1 >=? len (exposures s))%Z; reflexivity.
Qed.

(** [next_callback] without the slider key: [KeyError], nothing changed. *)
Lemma next_callback_raise s :
  sliders s !! idx s = None ->
  next_callback s = (Raise KeyError, s).
Proof.
  intros Hv. unfold next_callback, slider_item, bind, read, modify, lift, ret.
  now rewrite Hv.
Qed.

(** The survey page changes at most the slider key of the current index. *)
Lemma survey_page_state s :
  snd (survey_page s) = s \/
  exists v, snd (survey_page s) = set_slider (idx s) v s.
Proof.
  unfold survey_page, slider_item, bind, read, modify, lift, ret.
  destruct (getitem (exposures s) (idx s)) as [exp|e]; [|now left].
  destruct (sliders s !! idx s) as [v|] eqn:Hv.
  - cbn. rewrite Hv. now left.
  - destruct (idx s =? 0)%Z.
    + destruct (float (start_score s)) as [v|e]; [|now left].
      right. exists v. cbn. now rewrite lookup_insert_eq.
    + destruct (getitem (responses s) (-1)) as [r|e]; [|now left].
      right. exists r. cbn. now rewrite lookup_insert_eq.
Qed.

Lemma session_inv_defaults (uid : string) : session_inv (defaults uid).
Proof.
  repeat split; cbn; try discriminate. intros H. now contradiction H.
Qed.

Lemma session_inv_step s s' : session_inv s -> step s s' -> session_inv s'.
Proof.
  intros (Hlen & Hstart & Hidx) Hstep.
  destruct Hstep as [v s Hp|get src s Hp|s Hp|v s Hp Hs|s Hp].
  - repeat split; cbn; assumption.
  - destruct (fetch_live_exposures get CANDIDATE 10) as [live|e] eqn:Hf.
    + rewrite (begin_callback_ok get src s live Hf). cbn.
      repeat split; cbn; [eauto|].
      intros _ Hne. destruct (Random.sample_pool _ _ _ _); [done|].
      unfold len. cbn [length]. lia.
    + rewrite (begin_callback_raise get src s e Hf). cbn.
      repeat split; cbn; [assumption|congruence|congruence].
  - destruct (survey_page_state s) as [->|[v ->]];
      repeat split; cbn; assumption.
  - repeat split; cbn; assumption.
  - destruct (sliders s !! idx s) as [v|] eqn:Hv.
    + rewrite (next_callback_ok s v Hv). cbn.
      repeat split; cbn.
      * unfold len in *. rewrite length_app. cbn [length]. lia.
      * intros _. apply Hstart. congruence.
      * rewrite Z.geb_leb.
        destruct (Z.leb_spec (len (exposures s)) (idx s + 1)); [discriminate|].
        intros _ _. assumption.
    + rewrite (next_callback_raise s Hv). cbn.
      repeat split; assumption.
Qed.

Lemma reachable_inv s : reachable s -> session_inv s.
Proof.
  induction 1 as [uid|s s' _ IH Hstep].
  - apply session_inv_defaults.
  - exact (session_inv_step s s' IH Hstep).
Qed.

End SessionFacts.

(** * The session state machine against its specification *)

Section SessionClaims.
Import Py Provider Session Examples.
Implicit Types (s : state) (get : Endpoint) (src : Random.source).

Lemma reachable_advanced : reachable advanced.
Proof.
  unfold advanced, moved, shown, begun.
  eapply reach_step; [|apply step_next; reflexivity].
  eapply reach_step; [|apply step_move_slider; [reflexivity|]].
  2: { vm_compute. eauto. }
  eapply reach_step; [|apply step_render; reflexivity].
  eapply reach_step; [|apply step_begin; reflexivity].
  apply reach_defaults.
Qed.

(** C3. In every state a session can reach, [len(responses) == idx].  A
    successful [begin_callback] leaves both at zero, and a successful
    [next_callback] appends exactly one rating and adds exactly one to
    [idx]. *)
Theorem responses_length_is_idx :
  (forall s, reachable s -> len (responses s) = idx s) /\
  (forall get src s s',
      begin_callback get src s = (Ok tt, s') ->
      idx s' = 0%Z /\ responses s' = [] /\ len (responses s') = idx s') /\
  (forall s s',
      next_callback s = (Ok tt, s') ->
      exists v, responses s' = responses s ++ [v] /\
                idx s' = (idx s + 1)%Z).
Proof.
  split; [|split].
  - intros s Hr. now destruct (reachable_inv s Hr).
  - intros get src s s' Hb.
    destruct (fetch_live_exposures get CANDIDATE 10) as [live|e] eqn:Hf.
    + rewrite (begin_callback_ok get src s live Hf) in Hb.
      injection Hb as <-. cbn. auto.
    + rewrite (begin_callback_raise get src s e Hf) in Hb. discriminate.
  - intros s s' Hn.
    destruct (sliders s !! idx s) as [v|] eqn:Hv.
    + rewrite (next_callback_ok s v Hv) in Hn. injection Hn as <-.
      exists v. cbn. auto.
    + rewrite (next_callback_raise s Hv) in Hn. discriminate.
Qed.

Lemma responses_length_is_idx_witness :
  reachable advanced /\
  len (responses advanced) = idx advanced /\
  idx advanced = 1%Z.
Proof.
  split; [exact reachable_advanced|]. split; [|reflexivity].
  exact (proj1 responses_length_is_idx advanced reachable_advanced).
Defined.

(** C4. In the survey phase, a [next_callback] that finds its slider key
    completes; called with [idx == len(exposures) - 1] it moves the phase
    to done, called with [idx < len(exposures) - 1] it leaves the phase at
    survey. *)
Theorem next_callback_phase s (v : Q) :
  phase s = survey ->
  sliders s !! idx s = Some v ->
  exists s',
    next_callback s = (Ok tt, s') /\
    (idx s = (len (exposures s) - 1)%Z -> phase s' = done) /\
    ((idx s < len (exposures s) - 1)%Z -> phase s' = survey).
Proof.
  intros Hp Hv. eexists. split; [apply (next_callback_ok s v Hv)|].
  cbn. rewrite Z.geb_leb. split; intros Hi.
  - destruct (Z.leb_spec (len (exposures s)) (idx s + 1)); [reflexivity|lia].
  - destruct (Z.leb_spec (len (exposures s)) (idx s + 1)); [lia|exact Hp].
Qed.

Lemma next_callback_phase_witness :
  (idx moved < len (exposures moved) - 1)%Z /\
  idx last_shown = (len (exposures last_shown) - 1)%Z /\
  (exists s', next_callback moved = (Ok tt, s') /\
              (idx moved = (len (exposures moved) - 1)%Z -> phase s' = done) /\
              ((idx moved < len (exposures moved) - 1)%Z -> phase s' = survey)) /\
  (exists s', next_callback last_shown = (Ok tt, s') /\
              (idx last_shown = (len (exposures last_shown) - 1)%Z -> phase s' = done) /\
              ((idx last_shown < len (exposures last_shown) - 1)%Z -> phase s' = survey)).
Proof.
  split; [reflexivity|]. split; [reflexivity|]. split.
  - apply (next_callback_phase moved 62); reflexivity.
  - apply (next_callback_phase last_shown 40); reflexivity.
Defined.

(** With no exposures, nothing the participant can do leaves the survey
    phase: the page raises before it sets the slider key, and without the
    key [next_callback] raises too. *)
Lemma empty_survey_stuck s s' :
  rtc step s s' ->
  phase s = survey -> exposures s = [] -> idx s = 0%Z ->
  sliders s !! 0%Z = None ->
  phase s' = survey /\ responses s' = responses s.
Proof.
  induction 1 as [s|s s1 s2 Hstep _ IH]; intros Hp He Hi Hs; [auto|].
  assert (s1 = s) as ->; [|auto].
  destruct Hstep as [v s Hp'|get src s Hp'|s _|v s _ [w Hw]|s _];
    try congruence.
  - unfold survey_page, bind, read, lift. rewrite He, Hi. reflexivity.
  - rewrite next_callback_raise by (now rewrite Hi). reflexivity.
Qed.

(** C5 (what the code does).  When the fetch succeeds with no usable
    exposure, [begin_callback] completes with an empty list of exposures,
    no responses and the phase at survey.  The survey page then raises
    [IndexError] on [exposures[0]], and no later interaction moves the
    phase to done. *)
Theorem begin_without_exposures_never_done get src s :
  fetch_live_exposures get CANDIDATE 10 = Ok [] ->
  sliders s !! 0%Z = None ->
  exists s',
    begin_callback get src s = (Ok tt, s') /\
    exposures s' = [] /\ responses s' = [] /\ idx s' = 0%Z /\
    phase s' = survey /\
    survey_page s' = (Raise IndexError, s') /\
    forall s'', rtc step s' s'' -> phase s'' = survey /\ responses s'' = [].
Proof.
  intros Hf Hs. eexists. split; [apply (begin_callback_ok get src s [] Hf)|].
  cbn. do 5 (split; [reflexivity|]).
  intros s'' Hsteps. now apply (empty_survey_stuck _ _ Hsteps).
Qed.

Lemma begin_without_exposures_never_done_witness :
  fetch_live_exposures endpoint_none_usable CANDIDATE 10 = Ok [] /\
  exists s',
    begin_callback endpoint_none_usable draws fresh = (Ok tt, s') /\
    exposures s' = [] /\ responses s' = [] /\ idx s' = 0%Z /\
    phase s' = survey /\
    survey_page s' = (Raise IndexError, s') /\
    forall s'', rtc step s' s'' -> phase s'' = survey /\ responses s'' = [].
Proof.
  split; [reflexivity|].
  apply (begin_without_exposures_never_done endpoint_none_usable draws fresh);
    reflexivity.
Defined.

(** C6 (as stated, refuted).  A server error during [begin_callback]
    leaves the phase at init, but the session state is not unchanged:
    [start_score], unset before the call, holds the slider value after
    it. *)
Lemma begin_failure_sets_start_score :
  fst (begin_callback endpoint_failing draws fresh) = Raise HTTPError /\
  phase (snd (begin_callback endpoint_failing draws fresh)) = init /\
  start_score fresh = None /\
  start_score (snd (begin_callback endpoint_failing draws fresh)) = Some 50%Q.
Proof. repeat split; reflexivity. Qed.

(** C6 (amended).  When the fetch inside [begin_callback] raises, the
    exception propagates out of the callback; the phase, the exposures,
    [idx], the responses and every other key are as before the call, so a
    session at init stays at init and can begin again; only [start_score]
    has changed, to the value of the starting slider. *)
Theorem begin_failure_keeps_session get src s (e : exn) :
  fetch_live_exposures get CANDIDATE 10 = Raise e ->
  exists s',
    begin_callback get src s = (Raise e, s') /\
    phase s' = phase s /\
    exposures s' = exposures s /\
    idx s' = idx s /\
    responses s' = responses s /\
    sliders s' = sliders s /\
    start_slider s' = start_slider s /\
    user_id s' = user_id s /\
    start_score s' = Some (start_slider s) /\
    (phase s = init ->
     forall get' src', step s' (snd (begin_callback get' src' s'))).
Proof.
  intros Hf. eexists. split; [apply (begin_callback_raise get src s e Hf)|].
  do 8 (split; [reflexivity|]).
  intros Hp get' src'. apply step_begin. exact Hp.
Qed.

Lemma begin_failure_keeps_session_witness :
  fetch_live_exposures endpoint_failing CANDIDATE 10 = Raise HTTPError /\
  exists s',
    begin_callback endpoint_failing draws fresh = (Raise HTTPError, s') /\
    phase s' = phase fresh /\
    exposures s' = exposures fresh /\
    idx s' = idx fresh /\
    responses s' = responses fresh /\
    sliders s' = sliders fresh /\
    start_slider s' = start_slider fresh /\
    user_id s' = user_id fresh /\
    start_score s' = Some (start_slider fresh) /\
    (phase fresh = init ->
     forall get' src', step s' (snd (begin_callback get' src' s'))).
Proof.
  split; [reflexivity|].
  apply (begin_failure_keeps_session endpoint_failing draws fresh HTTPError).
  reflexivity.
Defined.

Lemma NoDup_of_submseteq {A : Type} (l k : list A) :
  l ⊆+ k -> NoDup k -> NoDup l.
Proof.
  intros Hsub Hk. apply submseteq_Permutation in Hsub as [rest Hperm].
  rewrite Hperm in Hk. now apply NoDup_app in Hk as [? _].
Qed.

(** C7. Whatever usable exposures the fetch returns, [begin_callback]
    stores a sample of exactly [min(len(live), NUM_EXPOSURES)] of them,
    drawn without replacement (a sub-multiset of the fetched list, with no
    repetition when the fetched items are distinct); the survey never
    starts with more than [NUM_EXPOSURES] exposures, and three usable items
    give three exposures. *)
Theorem begin_samples_exposures get src s (live : list Exposure) :
  fetch_live_exposures get CANDIDATE 10 = Ok live ->
  exists s',
    begin_callback get src s = (Ok tt, s') /\
    phase s' = survey /\
    len (exposures s') = Z.min (len live) NUM_EXPOSURES /\
    exposures s' ⊆+ live /\
    (NoDup live -> NoDup (exposures s')) /\
    (len (exposures s') <= NUM_EXPOSURES)%Z /\
    (len live = 3%Z -> len (exposures s') = 3%Z).
Proof.
  intros Hf. eexists. split; [apply (begin_callback_ok get src s live Hf)|].
  cbn [phase exposures].
  assert (Hlen : len (Random.sample_pool src live 0
                        (Z.to_nat (Z.min (len live) NUM_EXPOSURES)))
                 = Z.min (len live) NUM_EXPOSURES).
  { unfold len at 1. rewrite sample_pool_length; unfold len, NUM_EXPOSURES; lia. }
  split; [reflexivity|]. split; [exact Hlen|].
  split; [apply sample_pool_submseteq|].
  split; [apply NoDup_of_submseteq, sample_pool_submseteq|].
  rewrite Hlen. unfold NUM_EXPOSURES. split; [lia|]. intros ->. reflexivity.
Qed.

Lemma begin_samples_exposures_witness :
  (exists live,
      fetch_live_exposures endpoint_three CANDIDATE 10 = Ok live /\
      len live = 3%Z /\
      exists s',
        begin_callback endpoint_three draws fresh = (Ok tt, s') /\
        phase s' = survey /\
        len (exposures s') = Z.min (len live) NUM_EXPOSURES /\
        exposures s' ⊆+ live /\
        (NoDup live -> NoDup (exposures s')) /\
        (len (exposures s') <= NUM_EXPOSURES)%Z /\
        (len live = 3%Z -> len (exposures s') = 3%Z)) /\
  len (exposures begun) = 3%Z.
Proof.
  split; [|reflexivity].
  eexists. split; [reflexivity|]. split; [reflexivity|].
  apply (begin_samples_exposures endpoint_three draws fresh). reflexivity.
Defined.

(** C8. On the survey page of a running session, at an index whose slider
    has not been set yet, the page sets and shows the slider at the
    starting score when the index is 0 and at the preceding rating
    [responses[idx - 1]] when the index is positive. *)
Theorem survey_page_default s :
  reachable s ->
  phase s = survey ->
  exposures s <> [] ->
  sliders s !! idx s = None ->
  exists (d : Q) (shown : view),
    survey_page s = (Ok shown, set_slider (idx s) d s) /\
    slider_value shown = d /\
    (idx s = 0%Z -> start_score s = Some d) /\
    ((0 < idx s)%Z -> responses s !! Z.to_nat (idx s - 1) = Some d).
Proof.
  intros Hr Hp He Hs.
  destruct (reachable_inv s Hr) as (Hlen & Hstart & Hidx).
  specialize (Hidx Hp He).
  assert (Hnot : phase s <> init) by congruence.
  destruct (Hstart Hnot) as [start Hsc].
  assert (H0 : (0 <= idx s)%Z) by (rewrite <- Hlen; apply len_nonneg).
  destruct (lookup_lt_is_Some_2 (exposures s) (Z.to_nat (idx s)))
    as [exp Hexp]; [unfold len in Hidx; lia|].
  assert (Hget : getitem (exposures s) (idx s) = Ok exp).
  { rewrite <- (Z2Nat.id (idx s)) by exact H0.
    now rewrite getitem_of_nat, Hexp. }
  unfold survey_page, slider_item, bind, read, modify, lift, ret.
  rewrite Hget, Hs.
  destruct (Z.eqb_spec (idx s) 0) as [Hz|Hnz].
  - exists start. eexists. rewrite Hsc. cbn.
    rewrite lookup_insert_eq.
    split; [reflexivity|]. split; [reflexivity|]. split; [auto|lia].
  - destruct (responses s) as [|r0 rs0] eqn:Hrs using rev_ind.
    { unfold len in Hlen. cbn in Hlen. lia. }
    exists r0. eexists. rewrite getitem_last. cbn.
    rewrite lookup_insert_eq.
    split; [reflexivity|]. split; [reflexivity|]. split; [lia|].
    intros _. unfold len in Hlen. rewrite length_app in Hlen. cbn in Hlen.
    replace (Z.to_nat (idx s - 1)) with (length rs0) by lia.
    now apply list_lookup_middle.
Qed.

Lemma survey_page_default_witness :
  idx advanced = 1%Z /\
  responses advanced = [62%Q] /\
  exists (d : Q) (shown : view),
    survey_page advanced = (Ok shown, set_slider (idx advanced) d advanced) /\
    slider_value shown = d /\
    (idx advanced = 0%Z -> start_score advanced = Some d) /\
    ((0 < idx advanced)%Z ->
     responses advanced !! Z.to_nat (idx advanced - 1) = Some d).
Proof.
  split; [reflexivity|]. split; [reflexivity|].
  apply (survey_page_default advanced reachable_advanced);
    [reflexivity|discriminate|reflexivity].
Defined.

(** The payload loop, started at position [k] with enough ratings left:
    one row per remaining exposure. *)
Lemma payload_loop_rows (uid : string) (start : option Q) (resp : list Q) :
  forall (es : list Exposure) (k : nat) (payload : list row),
    (k + length es <= length resp)%nat ->
    payload_loop uid start resp (Z.of_nat k) es payload =
    Ok (payload ++
        imap (fun j er =>
                mkRow uid start (Z.of_nat (k + j))
                      (headline (fst er)) (summary (fst er)) (snd er))
             (zip es (drop k resp))).
Proof.
  induction es as [|e es IH]; intros k payload Hk; cbn [payload_loop].
  - cbn. now rewrite app_nil_r.
  - cbn [length] in Hk.
    destruct (lookup_lt_is_Some_2 resp k) as [r Hr]; [lia|].
    rewrite getitem_of_nat, Hr.
    replace (Z.of_nat k + 1)%Z with (Z.of_nat (S k)) by lia.
    rewrite IH by lia.
    rewrite (drop_S resp r k Hr). cbn [zip_with]. rewrite imap_cons.
    rewrite <- app_assoc. cbn [app fst snd].
    rewrite Nat.add_0_r. do 3 f_equal.
    apply imap_ext. intros j er _. cbn. do 2 f_equal. lia.
Qed.

(** The payload loop with too few ratings left raises at the first
    exposure that has none. *)
Lemma payload_loop_short (uid : string) (start : option Q) (resp : list Q) :
  forall (es : list Exposure) (k : nat) (payload : list row),
    (k <= length resp < k + length es)%nat ->
    payload_loop uid start resp (Z.of_nat k) es payload = Raise IndexError.
Proof.
  induction es as [|e es IH]; intros k payload Hk; cbn [payload_loop].
  - cbn [length] in Hk. lia.
  - cbn [length] in Hk. rewrite getitem_of_nat.
    destruct (resp !! k) as [r|] eqn:Hr; [|reflexivity].
    apply lookup_lt_Some in Hr.
    replace (Z.of_nat k + 1)%Z with (Z.of_nat (S k)) by lia.
    apply IH. lia.
Qed.

(** C9 (as stated, refuted).  With one exposure and two ratings the
    lengths differ, yet the payload is assembled without an error: one
    row, built from the first rating, and the second rating left out. *)
Lemma payload_truncates_surplus_ratings :
  len (exposures surplus_ratings) = 1%Z /\
  len (responses surplus_ratings) = 2%Z /\
  build_payload surplus_ratings =
  Ok [mkRow "session-1" None 0
            "Mayor visits" "A visit" 10%Q].
Proof. repeat split; reflexivity. Qed.

(** C9 (amended).  With fewer ratings than exposures the payload assembly
    raises [IndexError] and yields no rows.  With more ratings than
    exposures (or as many) it raises nothing: it yields one row per
    exposure, paired with the rating at the same position, and ignores the
    ratings beyond. *)
Theorem build_payload_lengths (s : state) :
  ((len (responses s) < len (exposures s))%Z ->
   build_payload s = Raise IndexError) /\
  ((len (exposures s) <= len (responses s))%Z ->
   build_payload s = Ok (spec_rows s) /\
   len (spec_rows s) = len (exposures s)).
Proof.
  unfold build_payload, len. split; intros Hl.
  - apply (payload_loop_short _ _ _ _ 0%nat). lia.
  - split.
    + change 0%Z with (Z.of_nat 0).
      rewrite payload_loop_rows by (cbn; lia). reflexivity.
    + unfold spec_rows. rewrite length_imap, length_zip. lia.
Qed.

End SessionClaims.

(** * Further properties of the score engine *)

Section ScoreExtras.
Import Py Score Labels.

Lemma len_pos_Q {A : Type} (x : A) (l : list A) : (0 < inject_Z (len (x :: l)))%Q.
Proof.
  unfold len. cbn [length].
  change 0%Q with (inject_Z 0). rewrite <- Zlt_Qlt. lia.
Qed.

(** X1. The level is always between 1 and 5, and the label is a function
    of the level: the two ways of reaching level 4 print the same label. *)
Theorem compute_level_label (start : Q) (responses : list Q) :
  (1 <= fst (compute_level start responses) <= 5)%Z /\
  snd (compute_level start responses)
  = label_of (fst (compute_level start responses)).
Proof.
  rewrite compute_level_chain. cbv zeta.
  repeat match goal with
         | |- context [if ?b then _ else _] => destruct b
         end; cbn; split; first [lia | reflexivity].
Qed.

Lemma spec_total_le (start bound : Q) (rs : list Q) :
  Forall (fun r => (Qabs (r - start) <= bound)%Q) rs ->
  (spec_total start rs <= bound * inject_Z (len rs))%Q.
Proof.
  induction 1 as [|r rs Hr _ IH]; cbn [spec_total fold_right].
  - unfold len. cbn [length]. change (inject_Z (Z.of_nat 0)) with 0%Q. lra.
  - fold (spec_total start rs).
    unfold len in *. cbn [length]. rewrite Nat2Z.inj_succ, <- Z.add_1_r.
    rewrite inject_Z_plus. change (inject_Z 1) with 1%Q. lra.
Qed.

Lemma spec_avgDelta_le (start bound : Q) (rs : list Q) :
  (0 <= bound)%Q ->
  Forall (fun r => (Qabs (r - start) <= bound)%Q) rs ->
  (spec_avgDelta start rs <= bound)%Q.
Proof.
  intros Hb Hall. destruct rs as [|r rs]; [exact Hb|].
  unfold spec_avgDelta. apply Qle_shift_div_r; [apply len_pos_Q|].
  now apply spec_total_le.
Qed.

Lemma level_of_small_avg (start : Q) (rs : list Q) :
  (spec_avgDelta start rs <= 2)%Q ->
  compute_level start rs =
  if ge start 80 then (5%Z, "Buttigieg Stan"%string)
  else (4%Z, "Steady Supporter"%string).
Proof.
  intros Havg. rewrite compute_level_chain. cbv zeta.
  assert (G : forall c, (2 <= c)%Q -> gt (spec_avgDelta start rs) c = false).
  { intros c Hc. apply gt_false. lra. }
  rewrite !G by lra. reflexivity.
Qed.

(** X3. A participant whose every rating stays within 2 points of the
    starting score (or who gave no rating) gets level 5, Buttigieg Stan,
    when the starting score is at least 80 and level 4, Steady Supporter,
    otherwise. *)
Theorem compute_level_steady (start : Q) (responses : list Q) :
  Forall (fun r => (Qabs (r - start) <= 2)%Q) responses ->
  compute_level start responses =
  if ge start 80 then (5%Z, "Buttigieg Stan"%string)
  else (4%Z, "Steady Supporter"%string).
Proof.
  intros Hall. apply level_of_small_avg, spec_avgDelta_le; [lra|exact Hall].
Qed.

Lemma compute_level_steady_witness :
  Forall (fun r => (Qabs (r - 85) <= 2)%Q) [86%Q; 84%Q; 87%Q] /\
  compute_level 85 [86%Q; 84%Q; 87%Q] = (5%Z, "Buttigieg Stan"%string).
Proof.
  assert (H : Forall (fun r => (Qabs (r - 85) <= 2)%Q) [86%Q; 84%Q; 87%Q]).
  { repeat constructor; vm_compute; discriminate. }
  split; [exact H|]. exact (compute_level_steady 85 _ H).
Defined.

End ScoreExtras.

(** * Properties of the exposure provider and of the sampling *)

Section ProviderExtras.
Import Py Provider Usable Session.

(** The loop of [fetch_live_exposures] keeps, in order, the exposure of
    every article that has one. *)
Lemma fold_keep_usable (arts : list Article) : forall exps : list Exposure,
  fold_left keep_usable arts exps = exps ++ omap exposure_of arts.
Proof.
  induction arts as [|art arts IH]; intros exps; cbn [fold_left].
  - cbn. now rewrite app_nil_r.
  - rewrite IH. cbn [omap list_omap].
    unfold keep_usable, exposure_of. cbv zeta.
    destruct (truthy _ && truthy _).
    + now rewrite <- app_assoc.
    + reflexivity.
Qed.

Lemma or_else_truthy (field : option string) (s : string) :
  truthy (or_else field EmptyString) = true ->
  or_else field EmptyString = s ->
  filled field s.
Proof.
  unfold or_else, filled. destruct field as [t|]; [|discriminate].
  destruct (truthy t) eqn:Ht; [|discriminate].
  intros _ <-. auto.
Qed.

(** What [exposure_of] keeps of an article. *)
Lemma exposure_of_Some (art : Article) (e : Exposure) :
  exposure_of art = Some e ->
  filled (title art) (headline e) /\
  (filled (description art) (summary e) \/
   (blank (description art) /\ filled (content art) (summary e))).
Proof.
  unfold exposure_of. cbv zeta.
  destruct (truthy (or_else (title art) EmptyString)) eqn:Ht; [|discriminate].
  set (desc := or_else (description art) (or_else (content art) EmptyString)).
  destruct (truthy desc) eqn:Hd; [|discriminate].
  cbn [andb]. intros [= <-]. cbn [headline summary].
  split; [now apply or_else_truthy|].
  subst desc. unfold blank, filled.
  destruct (description art) as [d|]; cbn [or_else] in *.
  - destruct (truthy d) eqn:Hdd.
    + left. auto.
    + right. split; [reflexivity|]. now apply or_else_truthy.
  - right. split; [reflexivity|]. now apply or_else_truthy.
Qed.

(** X5. Every exposure the fetch returns has a non-empty headline and a
    non-empty summary, and comes from an article of the reply: the headline
    is that article's title, the summary its description, or its content
    when the description is absent, null or empty. *)
Theorem fetched_exposures_usable
    (get : Endpoint) (query : string) (n : Z) (live : list Exposure) :
  fetch_live_exposures get query n = Ok live ->
  forall e, e ∈ live ->
    truthy (headline e) = true /\ truthy (summary e) = true /\
    exists status_code body art,
      get query n = Response status_code body /\
      art ∈ default [] body /\
      filled (title art) (headline e) /\
      (filled (description art) (summary e) \/
       (blank (description art) /\ filled (content art) (summary e))).
Proof.
  unfold fetch_live_exposures.
  destruct (get query n) as [|status_code body]; [discriminate|].
  destruct (raise_for_status status_code); [|discriminate].
  cbv zeta. rewrite fold_keep_usable. cbn [app]. intros [= <-] e He.
  apply list_elem_of_omap in He as (art & Hart & Hexp).
  destruct (exposure_of_Some art e Hexp) as [Ht Hs].
  split; [apply Ht|]. split; [destruct Hs as [Hs|[_ Hs]]; apply Hs|].
  exists status_code, body, art. auto.
Qed.

Lemma fetched_exposures_usable_witness :
  fetch_live_exposures Examples.endpoint_three CANDIDATE 10
  = Ok [mkExposure "Mayor visits" "A visit";
        mkExposure "Town hall" "Full text";
        mkExposure "Poll" "Numbers"] /\
  truthy "Town hall" = true /\ truthy "Full text" = true /\
  exists status_code body art,
    Examples.endpoint_three CANDIDATE 10%Z = Response status_code body /\
    art ∈ default [] body /\
    filled (title art) "Town hall" /\
    (filled (description art) "Full text" \/
     (blank (description art) /\ filled (content art) "Full text")).
Proof.
  split; [reflexivity|].
  apply (fetched_exposures_usable Examples.endpoint_three CANDIDATE 10
           _ eq_refl (mkExposure "Town hall" "Full text")).
  apply list_elem_of_further, list_elem_of_here.
Defined.

Lemma omap_length_le {A B : Type} (f : A -> option B) (l : list A) :
  (length (omap f l) <= length l)%nat.
Proof.
  induction l as [|x l IH]; cbn [omap list_omap length]; [lia|].
  destruct (f x); cbn [length]; fold (omap f l); lia.
Qed.

(** X6. A fetch that does not raise returns one exposure for each usable
    article of the reply, in the reply's order, and so never more exposures
    than the reply has articles; a reply without an [articles] key gives
    none. *)
Theorem fetched_exposures_in_order
    (get : Endpoint) (query : string) (n : Z) (live : list Exposure) :
  fetch_live_exposures get query n = Ok live ->
  exists status_code body,
    get query n = Response status_code body /\
    live = omap exposure_of (default [] body) /\
    (length live <= length (default [] body))%nat /\
    (body = None -> live = []).
Proof.
  unfold fetch_live_exposures.
  destruct (get query n) as [|status_code body]; [discriminate|].
  destruct (raise_for_status status_code); [|discriminate].
  cbv zeta. rewrite fold_keep_usable. cbn [app]. intros [= <-].
  exists status_code, body. split; [reflexivity|]. split; [reflexivity|].
  split; [apply omap_length_le|]. intros ->. reflexivity.
Qed.

Lemma fetched_exposures_in_order_witness :
  exists live,
    fetch_live_exposures Examples.endpoint_three CANDIDATE 10 = Ok live /\
    exists status_code body,
      Examples.endpoint_three CANDIDATE 10%Z = Response status_code body /\
      live = omap exposure_of (default [] body) /\
      (length live <= length (default [] body))%nat /\
      (body = None -> live = []).
Proof.
  eexists. split; [reflexivity|].
  apply (fetched_exposures_in_order Examples.endpoint_three CANDIDATE 10).
  reflexivity.
Defined.

End ProviderExtras.

Section SampleExtras.
Import Py Provider Session.

(** X7. [random.sample] raises [ValueError] exactly when the requested size
    is negative or exceeds the population; otherwise it returns that many
    items, drawn without replacement, and a sample of the whole population
    is a permutation of it. *)
Theorem sample_outcome {A : Type} (src : Random.source)
    (population : list A) (k : Z) :
  ((k < 0 \/ len population < k)%Z ->
   Random.sample src population k = Raise ValueError) /\
  ((0 <= k <= len population)%Z ->
   exists chosen,
     Random.sample src population k = Ok chosen /\
     len chosen = k /\
     chosen ⊆+ population /\
     (k = len population -> chosen ≡ₚ population)).
Proof.
  unfold Random.sample. split; intros Hk.
  - destruct (Z.leb_spec 0 k); [|reflexivity].
    destruct (Z.leb_spec k (len population)); [lia|reflexivity].
  - destruct (Z.leb_spec 0 k); [|lia].
    destruct (Z.leb_spec k (len population)); [|lia].
    cbn [andb]. eexists. split; [reflexivity|].
    assert (Hlen : len (Random.sample_pool src population 0 (Z.to_nat k)) = k).
    { unfold len in *. rewrite sample_pool_length; lia. }
    split; [exact Hlen|]. split; [apply sample_pool_submseteq|].
    intros ->. apply submseteq_length_Permutation.
    + apply sample_pool_submseteq.
    + unfold len in *. lia.
Qed.

(** X8. When the fetch returns at most [NUM_EXPOSURES] usable exposures,
    [begin_callback] takes them all: the session's exposures are a
    permutation of the fetched list. *)
Theorem begin_takes_all (get : Endpoint) (src : Random.source)
    (s : state) (live : list Exposure) :
  fetch_live_exposures get CANDIDATE 10 = Ok live ->
  (len live <= NUM_EXPOSURES)%Z ->
  exposures (snd (begin_callback get src s)) ≡ₚ live.
Proof.
  intros Hf Hle. rewrite (begin_callback_ok get src s live Hf).
  cbn [snd exposures].
  apply submseteq_length_Permutation; [apply sample_pool_submseteq|].
  rewrite sample_pool_length; unfold len in *; lia.
Qed.

Lemma begin_takes_all_witness :
  exists live,
    fetch_live_exposures Examples.endpoint_three CANDIDATE 10 = Ok live /\
    (len live <= NUM_EXPOSURES)%Z /\
    exposures (snd (begin_callback Examples.endpoint_three Examples.draws
                      Examples.fresh)) ≡ₚ live.
Proof.
  eexists. split; [reflexivity|].
  assert (Hle : (len (fold_left keep_usable
                        (take 10 Examples.five_articles) [])
                 <= NUM_EXPOSURES)%Z) by (vm_compute; discriminate).
  split; [exact Hle|].
  exact (begin_takes_all Examples.endpoint_three Examples.draws
           Examples.fresh _ eq_refl Hle).
Defined.

End SampleExtras.

(** * Further properties of the session state machine *)

Section SessionExtras.
Import Py Provider Score Session Final Runs.
Implicit Types (s : state) (get : Endpoint) (src : Random.source).

(** The survey page, case by case. *)
Lemma survey_page_cases s :
  survey_page s =
  match getitem (exposures s) (idx s) with
  | Raise e => (Raise e, s)
  | Ok exp =>
      match sliders s !! idx s with
      | Some v =>
          (Ok (mkView (idx s + 1) (len (exposures s))
                 (headline exp) (summary exp) v), s)
      | None =>
          match (if (idx s =? 0)%Z then float (start_score s)
                 else getitem (responses s) (-1)) with
          | Raise e => (Raise e, s)
          | Ok d =>
              (Ok (mkView (idx s + 1) (len (exposures s))
                     (headline exp) (summary exp) d),
               set_slider (idx s) d s)
          end
      end
  end.
Proof.
  unfold survey_page, slider_item, bind, read, modify, lift, ret.
  destruct (getitem (exposures s) (idx s)) as [exp|e]; [|reflexivity].
  destruct (sliders s !! idx s) as [v|] eqn:Hv.
  - now rewrite Hv.
  - destruct (idx s =? 0)%Z.
    + destruct (float (start_score s)) as [d|e]; [|reflexivity].
      cbn. now rewrite lookup_insert_eq.
    + destruct (getitem (responses s) (-1)) as [d|e]; [|reflexivity].
      cbn. now rewrite lookup_insert_eq.
Qed.

(** One interaction, case by case. *)
Lemma step_cases s s' :
  step s s' ->
  (phase s = init /\
   ((exists v, s' = set_start_slider v s) \/
    s' = set_start_score (Some (start_slider s)) s \/
    (exists es,
       s' = mkState (user_id s) survey (start_slider s)
              (Some (start_slider s)) es 0 [] (sliders s)))) \/
  (phase s = survey /\
   (s' = s \/
    (exists v,
       (is_Some (sliders s !! idx s) \/
        exists exp, getitem (exposures s) (idx s) = Ok exp) /\
       s' = set_slider (idx s) v s) \/
    (exists v, sliders s !! idx s = Some v /\
       s' = mkState (user_id s)
              (if (idx s + 1 >=? len (exposures s))%Z then done else phase s)
              (start_slider s) (start_score s) (exposures s)
              (idx s + 1) (responses s ++ [v]) (sliders s)))).
Proof.
  intros Hstep.
  destruct Hstep as [v s Hp|get src s Hp|s Hp|v s Hp Hs|s Hp].
  - left. split; [exact Hp|]. left. eauto.
  - left. split; [exact Hp|]. right.
    destruct (fetch_live_exposures get CANDIDATE 10) as [live|e] eqn:Hf.
    + rewrite (begin_callback_ok get src s live Hf). right. eauto.
    + rewrite (begin_callback_raise get src s e Hf). now left.
  - right. split; [exact Hp|]. rewrite survey_page_cases.
    destruct (getitem (exposures s) (idx s)) as [exp|e]; [|now left].
    destruct (sliders s !! idx s) as [v|]; [now left|].
    destruct (if (idx s =? 0)%Z then float (start_score s)
              else getitem (responses s) (-1)) as [d|e]; [|now left].
    right. left. exists d. eauto.
  - right. split; [exact Hp|]. right. left. exists v. eauto.
  - right. split; [exact Hp|].
    destruct (sliders s !! idx s) as [v|] eqn:Hv.
    + rewrite (next_callback_ok s v Hv). right. right. eauto.
    + rewrite (next_callback_raise s Hv). now left.
Qed.

(** X9. The phase never goes back and never skips: one interaction leaves
    it where it is or moves it one phase on, from init to survey or from
    survey to done. *)
Theorem phase_advances_by_step s s' :
  step s s' ->
  (phase_rank (phase s) <= phase_rank (phase s') <= S (phase_rank (phase s)))%nat.
Proof.
  intros Hstep.
  destruct (step_cases s s' Hstep)
    as [[Hp [[v ->]|[->|[es ->]]]]|[Hp [->|[(v & _ & ->)|(v & _ & ->)]]]];
    cbn [phase set_start_slider set_start_score set_slider];
    rewrite ?Hp; cbn; try lia.
  destruct (idx s + 1 >=? len (exposures s))%Z; cbn; lia.
Qed.

Lemma phase_advances_by_step_witness :
  step Examples.last_shown finished /\
  (phase_rank (phase Examples.last_shown) <= phase_rank (phase finished)
   <= S (phase_rank (phase Examples.last_shown)))%nat /\
  phase finished = done.
Proof.
  assert (H : step Examples.last_shown finished)
    by (apply step_next; reflexivity).
  split; [exact H|]. split; [|reflexivity].
  exact (phase_advances_by_step _ _ H).
Defined.

Lemma history_stable_step s s' :
  step s s' -> phase s <> init ->
  phase s' <> init /\
  user_id s' = user_id s /\
  start_score s' = start_score s /\
  exposures s' = exposures s /\
  responses s `prefix_of` responses s'.
Proof.
  intros Hstep Hni.
  destruct (step_cases s s' Hstep)
    as [[Hp _]|[Hp [->|[(v & _ & ->)|(v & _ & ->)]]]]; [congruence| | |];
    cbn; repeat split; try assumption; try reflexivity.
  - destruct (idx s + 1 >=? len (exposures s))%Z; congruence.
  - now apply prefix_app_r.
Qed.

(** X10. Once the survey has begun, nothing a participant does changes
    the session's user id, starting score or exposures, and no recorded
    rating is ever changed or dropped: the responses only grow at the
    end. *)
Theorem history_stable s s' :
  rtc step s s' -> phase s <> init ->
  phase s' <> init /\
  user_id s' = user_id s /\
  start_score s' = start_score s /\
  exposures s' = exposures s /\
  responses s `prefix_of` responses s'.
Proof.
  induction 1 as [s|s s1 s2 Hstep _ IH]; intros Hni.
  - repeat split; auto.
  - destruct (history_stable_step s s1 Hstep Hni) as (Hni1 & Hu & Hs & He & Hr).
    destruct (IH Hni1) as (Hni2 & Hu2 & Hs2 & He2 & Hr2).
    repeat split; try congruence. now transitivity (responses s1).
Qed.

Lemma history_stable_witness :
  rtc step Examples.advanced finished /\
  phase Examples.advanced <> init /\
  phase finished <> init /\
  user_id finished = user_id Examples.advanced /\
  start_score finished = start_score Examples.advanced /\
  exposures finished = exposures Examples.advanced /\
  responses Examples.advanced `prefix_of` responses finished.
Proof.
  assert (Hrun : rtc step Examples.advanced finished).
  { unfold finished, Examples.last_shown, Examples.second_rated.
    eapply rtc_l; [apply step_render; reflexivity|].
    eapply rtc_l; [apply (step_move_slider 40); [reflexivity|]|].
    { vm_compute. eauto. }
    eapply rtc_l; [apply step_next; reflexivity|].
    eapply rtc_l; [apply step_render; reflexivity|].
    eapply rtc_l; [apply step_next; reflexivity|].
    apply rtc_refl. }
  assert (Hni : phase Examples.advanced <> init) by discriminate.
  split; [exact Hrun|]. split; [exact Hni|].
  exact (history_stable _ _ Hrun Hni).
Defined.

(** X11. [next_callback] raises exactly when the slider key of the current
    index is missing; it then raises [KeyError] and changes nothing.
    Otherwise it records exactly the value stored under that key, and
    leaves the slider keys, the exposures and the starting score alone. *)
Theorem next_callback_outcome s :
  ((exists e, fst (next_callback s) = Raise e) <-> sliders s !! idx s = None) /\
  (sliders s !! idx s = None -> next_callback s = (Raise KeyError, s)) /\
  (forall v, sliders s !! idx s = Some v ->
     fst (next_callback s) = Ok tt /\
     responses (snd (next_callback s)) = responses s ++ [v] /\
     sliders (snd (next_callback s)) = sliders s /\
     exposures (snd (next_callback s)) = exposures s /\
     start_score (snd (next_callback s)) = start_score s).
Proof.
  split; [|split].
  - destruct (sliders s !! idx s) as [v|] eqn:Hv.
    + rewrite (next_callback_ok s v Hv). cbn. split; [intros [e [=]]|discriminate].
    + rewrite (next_callback_raise s Hv). cbn. split; eauto.
  - apply next_callback_raise.
  - intros v Hv. rewrite (next_callback_ok s v Hv). cbn. auto.
Qed.

(** X12. Rendering the survey page again changes nothing: a second run of
    the page returns the same view and the same state as the first, and a
    slider that is already set is shown as stored and left untouched. *)
Theorem survey_page_idempotent s :
  survey_page (snd (survey_page s)) = survey_page s /\
  (forall v, sliders s !! idx s = Some v ->
     snd (survey_page s) = s /\
     forall shown, fst (survey_page s) = Ok shown -> slider_value shown = v).
Proof.
  split.
  - rewrite (survey_page_cases s).
    destruct (getitem (exposures s) (idx s)) as [exp|e] eqn:Hexp.
    2: { cbn [snd]. now rewrite survey_page_cases, Hexp. }
    destruct (sliders s !! idx s) as [v|] eqn:Hv.
    { cbn [snd]. now rewrite survey_page_cases, Hexp, Hv. }
    destruct (if (idx s =? 0)%Z then float (start_score s)
              else getitem (responses s) (-1)) as [d|e] eqn:Hd.
    2: { cbn [snd]. now rewrite survey_page_cases, Hexp, Hv, Hd. }
    cbn [snd]. rewrite survey_page_cases. cbn [exposures idx sliders set_slider].
    now rewrite Hexp, lookup_insert_eq.
  - intros v Hv. rewrite survey_page_cases, Hv.
    destruct (getitem (exposures s) (idx s)) as [exp|e]; cbn.
    + split; [reflexivity|]. now intros shown [= <-].
    + split; [reflexivity|]. discriminate.
Qed.

End SessionExtras.

(** * The final page and whole runs *)

Section FinalExtras.
Import Py Provider Score Session Final Runs.
Implicit Types (s : state) (db : Store).

Lemma run_inv_step s s' : run_inv s -> step s s' -> run_inv s'.
Proof.
  intros (Hinv & Hinit & Hempty & Hdone) Hstep.
  split; [exact (session_inv_step s s' Hinv Hstep)|].
  destruct Hinv as (Hlen & _ & Hidx).
  destruct (step_cases s s' Hstep)
    as [[Hp [[v ->]|[->|[es ->]]]]|[Hp [->|[(v & Hwhy & ->)|(v & Hv & ->)]]]];
    cbn.
  - repeat split; try congruence. exact Hinit.
  - repeat split; try congruence. exact Hinit.
  - repeat split; try discriminate.
    intros _ _. rewrite (Hinit Hp). apply lookup_empty.
  - auto.
  - repeat split; try congruence.
    intros _ He. specialize (Hempty Hp He). exfalso.
    destruct Hwhy as [[w Hw]|[exp Hexp]]; [congruence|].
    rewrite He in Hexp. unfold getitem in Hexp.
    destruct (idx s <? 0)%Z; cbn in Hexp;
      repeat match type of Hexp with
             | context [if ?b then _ else _] => destruct b
             end; discriminate.
  - destruct (decide (exposures s = [])) as [He|Hne].
    { rewrite (Hempty Hp He) in Hv. discriminate. }
    specialize (Hidx Hp Hne). rewrite Z.geb_leb.
    destruct (Z.leb_spec (len (exposures s)) (idx s + 1)).
    + repeat split; try discriminate; [lia|exact Hne].
    + repeat split; try congruence.
Qed.

Lemma reachable_run_inv s : reachable s -> run_inv s.
Proof.
  induction 1 as [uid|s s' _ IH Hstep].
  - split; [apply session_inv_defaults|]. cbn. repeat split; discriminate.
  - exact (run_inv_step s s' IH Hstep).
Qed.

Lemma list_last_case {A : Type} (l : list A) :
  l = [] \/ exists front x, l = front ++ [x].
Proof.
  destruct l as [|x front] using rev_ind; [now left|right; eauto].
Qed.

Lemma build_payload_short s :
  (len (responses s) < len (exposures s))%Z ->
  build_payload s = Raise IndexError.
Proof.
  intros Hl. unfold build_payload, len in *.
  apply (payload_loop_short _ _ _ _ 0%nat). lia.
Qed.

Lemma build_payload_rows s :
  (len (exposures s) <= len (responses s))%Z ->
  build_payload s = Ok (spec_rows s).
Proof.
  intros Hl. unfold build_payload, len in *.
  change 0%Z with (Z.of_nat 0).
  rewrite payload_loop_rows by (cbn; lia). reflexivity.
Qed.

(** X13. The final page fails exactly when the starting score is unset,
    when there is no response, or when there are fewer responses than
    exposures; the failure is then a [TypeError] or an [IndexError], never
    a division by zero, and never comes from the store. *)
Theorem final_page_crashes db s :
  ((exists f, final_page db s = Crashed f) <->
   (start_score s = None \/ responses s = [] \/
    (len (responses s) < len (exposures s))%Z)) /\
  (forall f, final_page db s = Crashed f ->
             f = Raised TypeError \/ f = Raised IndexError).
Proof.
  unfold final_page.
  destruct (start_score s) as [start|] eqn:Hs.
  2: { split; [split; eauto|]. intros f [= <-]. now left. }
  destruct (Z.lt_ge_cases (len (responses s)) (len (exposures s))) as [Hlt|Hge].
  - rewrite (build_payload_short s Hlt).
    remember (responses s) as resp eqn:Hresp.
    destruct (compute_level start resp) as [level label].
    destruct (list_last_case resp) as [->|(front & x & ->)].
    { cbn. split; [split; eauto|]. intros f [= <-]. now right. }
    rewrite getitem_last.
    assert (Hz : (len (front ++ [x]) =? 0)%Z = false).
    { apply Z.eqb_neq. unfold len. rewrite length_app. cbn. lia. }
    unfold truediv. rewrite Hz.
    split; [split; eauto|]. intros f [= <-]. now right.
  - rewrite (build_payload_rows s Hge).
    remember (responses s) as resp eqn:Hresp.
    destruct (compute_level start resp) as [level label].
    destruct (list_last_case resp) as [->|(front & x & ->)].
    { cbn. split; [split; eauto|]. intros f [= <-]. now right. }
    rewrite getitem_last.
    assert (Hz : (len (front ++ [x]) =? 0)%Z = false).
    { apply Z.eqb_neq. unfold len. rewrite length_app. cbn. lia. }
    unfold truediv. rewrite Hz. split.
    + split; [intros [f [=]]|].
      intros [[=]|[He|Hlt]]; [now destruct front|lia].
    + discriminate.
Qed.

(** X14. Whenever a session reaches the done phase, it has a starting
    score, at least one exposure, and exactly as many responses as
    exposures: the state the payload assembly needs. *)
Theorem finished_session_lengths s :
  reachable s -> phase s = done ->
  is_Some (start_score s) /\
  exposures s <> [] /\
  len (responses s) = len (exposures s).
Proof.
  intros Hr Hp.
  destruct (reachable_run_inv s Hr) as ((Hlen & Hstart & _) & _ & _ & Hdone).
  destruct (Hdone Hp) as [Hidx Hne].
  split; [apply Hstart; congruence|]. split; [exact Hne|]. congruence.
Qed.

Lemma reachable_finished : reachable finished.
Proof.
  unfold finished, Examples.last_shown, Examples.second_rated.
  eapply reach_step; [|apply step_next; reflexivity].
  eapply reach_step; [|apply step_render; reflexivity].
  eapply reach_step; [|apply step_next; reflexivity].
  eapply reach_step; [|apply (step_move_slider 40); [reflexivity|]].
  2: { vm_compute. eauto. }
  eapply reach_step; [|apply step_render; reflexivity].
  exact reachable_advanced.
Qed.

Lemma finished_session_lengths_witness :
  reachable finished /\ phase finished = done /\
  is_Some (start_score finished) /\
  exposures finished <> [] /\
  len (responses finished) = len (exposures finished).
Proof.
  split; [exact reachable_finished|]. split; [reflexivity|].
  exact (finished_session_lengths finished reachable_finished eq_refl).
Defined.



Lemma final_page_shown db s (start : Q) :
  start_score s = Some start ->
  responses s <> [] ->
  (len (exposures s) <= len (responses s))%Z ->
  exists v, final_page db s = Shown v.
Proof.
  intros Hs Hne Hle. unfold final_page. rewrite Hs.
  rewrite (build_payload_rows s Hle).
  remember (responses s) as resp eqn:Hresp.
  destruct (compute_level start resp) as [level label].
  destruct (list_last_case resp) as [->|(front & x & ->)]; [done|].
  rewrite getitem_last.
  assert (Hz : (len (front ++ [x]) =? 0)%Z = false).
  { apply Z.eqb_neq. unfold len. rewrite length_app. cbn. lia. }
  unfold truediv. rewrite Hz. eauto.
Qed.

Lemma getitem_nil {A : Type} (i : Z) : getitem (@nil A) i = Raise IndexError.
Proof.
  unfold getitem, len. cbn [length].
  destruct (i <? 0)%Z; destruct (_ <? 0)%Z; reflexivity.
Qed.

(** X16. With the API key set, a run of the script on a reachable session
    fails in one situation only: the survey phase of a session whose fetch
    returned no usable exposure.  Every other reachable state renders its
    page. *)
Theorem script_crashes (key : option string) db s :
  reachable s ->
  truthy (or_else key EmptyString) = true ->
  ((exists f, fst (script key db s) = Crashed f) <->
   (phase s = survey /\ exposures s = [])).
Proof.
  intros Hr Hk. unfold script. rewrite Hk. cbn [negb].
  destruct (reachable_run_inv s Hr)
    as ((Hlen & Hstart & Hidx) & _ & _ & Hdone).
  destruct (phase s) eqn:Hp.
  - cbn. split; [intros [f [=]]|intros [[=] _]].
  - rewrite survey_page_cases.
    destruct (decide (exposures s = [])) as [He|Hne].
    { rewrite He, getitem_nil. cbn. split; eauto. }
    specialize (Hidx eq_refl Hne).
    assert (H0 : (0 <= idx s)%Z) by (rewrite <- Hlen; apply len_nonneg).
    destruct (lookup_lt_is_Some_2 (exposures s) (Z.to_nat (idx s)))
      as [exp Hexp]; [unfold len in Hidx; lia|].
    assert (Hget : getitem (exposures s) (idx s) = Ok exp).
    { rewrite <- (Z2Nat.id (idx s)) by exact H0.
      now rewrite getitem_of_nat, Hexp. }
    rewrite Hget.
    assert (Hshown : forall r : outcome view * state,
               (exists v s', r = (Ok v, s')) ->
               (exists f, fst (match r with
                               | (Ok v, s') => (Shown (survey_view v), s')
                               | (Raise e, s') => (Crashed (Raised e), s')
                               end) = Crashed f) <->
               survey = survey /\ exposures s = []).
    { intros r (v & s' & ->). cbn. split; [intros [f [=]]|intros [_ ?]; done]. }
    apply Hshown.
    destruct (sliders s !! idx s) as [v|]; [eauto|].
    destruct (Z.eqb_spec (idx s) 0) as [Hz|Hnz].
    + destruct Hstart as [start ->]; [discriminate|]. cbn. eauto.
    + destruct (list_last_case (responses s)) as [Hnil|(front & x & Hfx)].
      { rewrite Hnil in Hlen. unfold len in Hlen. cbn in Hlen. lia. }
      rewrite Hfx, getitem_last. eauto.
  - destruct (Hdone eq_refl) as [Hi Hne].
    destruct Hstart as [start Hs]; [discriminate|].
    destruct (final_page_shown db s start Hs) as [v ->].
    + intros Hnil. rewrite Hnil in Hlen. unfold len in *. cbn in Hlen.
      destruct (exposures s); [done|cbn in Hi; lia].
    + lia.
    + cbn. split; [intros [f [=]]|intros [[=] _]].
Qed.

Lemma script_crashes_witness :
  reachable finished /\
  truthy (or_else (Some "key"%string) EmptyString) = true /\
  ((exists f, fst (script (Some "key"%string) store_ok finished) = Crashed f) <->
   (phase finished = survey /\ exposures finished = [])).
Proof.
  split; [exact reachable_finished|]. split; [reflexivity|].
  exact (script_crashes (Some "key"%string) store_ok finished
           reachable_finished eq_refl).
Defined.

End FinalExtras.

(** * A participant who never moves the slider *)

Section PassiveRun.
Import Py Provider Score Session Final Runs.
Implicit Types (s : state).

(** One page and one press of Next without touching the slider: the
    rating recorded is the starting score. *)
Lemma click_next_passive s (v : Q) (m : nat) :
  phase s = survey ->
  start_score s = Some v ->
  idx s = Z.of_nat m ->
  responses s = replicate m v ->
  (m < length (exposures s))%nat ->
  sliders s !! idx s = None ->
  click_next s =
  mkState (user_id s)
    (if (idx s + 1 >=? len (exposures s))%Z then done else survey)
    (start_slider s) (Some v) (exposures s)
    (idx s + 1) (replicate (S m) v) (<[idx s := v]> (sliders s)).
Proof.
  intros Hp Hs Hi Hr Hm Hnone. unfold click_next.
  destruct (lookup_lt_is_Some_2 (exposures s) m Hm) as [exp Hexp].
  assert (Hd : (if (idx s =? 0)%Z then float (start_score s)
                else getitem (responses s) (-1)) = Ok v).
  { rewrite Hs, Hr, Hi. destruct m as [|m]; [reflexivity|].
    destruct (Z.eqb_spec (Z.of_nat (S m)) 0) as [?|_]; [lia|].
    rewrite replicate_S_end. apply getitem_last. }
  rewrite survey_page_cases, Hi, getitem_of_nat, Hexp, <- Hi, Hnone, Hd.
  cbn [snd].
  rewrite (next_callback_ok _ v) by (cbn; apply lookup_insert_eq).
  cbn. rewrite Hp, Hs, Hr, <- replicate_S_end. reflexivity.
Qed.

Lemma click_through_passive s0 (v : Q) (n : nat) :
  phase s0 = survey ->
  start_score s0 = Some v ->
  idx s0 = 0%Z ->
  responses s0 = [] ->
  length (exposures s0) = n ->
  (forall j, (0 <= j)%Z -> sliders s0 !! j = None) ->
  forall m, (m <= n)%nat ->
    let s := click_through m s0 in
    idx s = Z.of_nat m /\
    responses s = replicate m v /\
    exposures s = exposures s0 /\
    start_score s = Some v /\
    (forall j, (Z.of_nat m <= j)%Z -> sliders s !! j = None) /\
    phase s = (if (0 <? m)%nat && (m =? n)%nat then done else survey).
Proof.
  intros Hp Hs Hi Hr Hn Hfree m.
  induction m as [|m IH]; intros Hm; cbv zeta.
  - cbn [click_through Nat.iter]. repeat split; auto.
  - destruct (IH ltac:(lia)) as (Ii & Ir & Ie & Is & If & Ip).
    cbv zeta in *.
    change (click_through (S m) s0) with (click_next (click_through m s0)).
    set (s := click_through m s0) in *.
    assert (Hps : phase s = survey).
    { rewrite Ip. destruct (Nat.eqb_spec m n); [lia|].
      now rewrite andb_false_r. }
    rewrite (click_next_passive s v m Hps Is Ii Ir);
      [|rewrite Ie; lia|apply If; lia].
    cbn -[Nat.eqb Nat.ltb replicate]. rewrite Ie, Ii.
    split; [lia|]. split; [reflexivity|]. split; [reflexivity|].
    split; [reflexivity|]. split.
    + intros j Hj. rewrite lookup_insert_ne by lia. apply If. lia.
    + unfold len. rewrite Hn, Z.geb_leb.
      destruct (Z.leb_spec (Z.of_nat n) (Z.of_nat m + 1)),
               (Nat.eqb_spec (S m) n), (Nat.ltb_spec 0 (S m));
        try lia; reflexivity.
Qed.

(** X17. A participant who presses Begin on a fresh session and then only
    presses Next, never touching a slider, rates every exposure at the
    starting score: the session reaches the done phase with one response
    per exposure, all equal to the starting score, and the level is 5 when
    the starting score is at least 80 and 4 otherwise. *)
Theorem passive_participant
    (get : Endpoint) (src : Random.source) (s : state) (live : list Exposure) :
  fetch_live_exposures get CANDIDATE 10 = Ok live ->
  live <> [] ->
  sliders s = ∅ ->
  let begun := snd (begin_callback get src s) in
  let ended := click_through (length (exposures begun)) begun in
  phase ended = done /\
  responses ended = replicate (length (exposures begun)) (start_slider s) /\
  compute_level (start_slider s) (responses ended) =
  (if ge (start_slider s) 80 then (5%Z, "Buttigieg Stan"%string)
   else (4%Z, "Steady Supporter"%string)).
Proof.
  intros Hf Hne Hfree. cbv zeta.
  rewrite (begin_callback_ok get src s live Hf). cbn [snd exposures].
  set (es := Random.sample_pool src live 0
               (Z.to_nat (Z.min (len live) NUM_EXPOSURES))).
  set (begun := mkState _ _ _ _ es _ _ _).
  assert (Hes : (0 < length es)%nat).
  { unfold es. rewrite sample_pool_length.
    - destruct live; [done|]. unfold len, NUM_EXPOSURES. cbn [length]. lia.
    - unfold len, NUM_EXPOSURES. lia. }
  destruct (click_through_passive begun (start_slider s) (length es))
    with (m := length es) as (_ & Hr & _ & _ & _ & Hp);
    try reflexivity; [intros j _; cbn; rewrite Hfree; apply lookup_empty|].
  cbv zeta in Hr, Hp. split.
  - rewrite Hp, Nat.eqb_refl.
    destruct (Nat.ltb_spec 0 (length es)); [reflexivity|lia].
  - split; [exact Hr|]. rewrite Hr.
    apply level_of_small_avg, spec_avgDelta_le; [lra|].
    apply Forall_replicate.
    assert (E : (start_slider s - start_slider s == 0)%Q) by ring.
    rewrite E. apply Qle_bool_imp_le. reflexivity.
Qed.

Lemma passive_participant_witness :
  fetch_live_exposures Examples.endpoint_three CANDIDATE 10
  = Ok [mkExposure "Mayor visits" "A visit";
        mkExposure "Town hall" "Full text";
        mkExposure "Poll" "Numbers"] /\
  sliders Examples.fresh = ∅ /\
  let begun := snd (begin_callback Examples.endpoint_three Examples.draws
                      Examples.fresh) in
  let ended := click_through (length (exposures begun)) begun in
  phase ended = done /\
  responses ended
  = replicate (length (exposures begun)) (start_slider Examples.fresh) /\
  compute_level (start_slider Examples.fresh) (responses ended) =
  (if ge (start_slider Examples.fresh) 80 then (5%Z, "Buttigieg Stan"%string)
   else (4%Z, "Steady Supporter"%string)).
Proof.
  split; [reflexivity|]. split; [reflexivity|].
  apply (passive_participant Examples.endpoint_three Examples.draws
           Examples.fresh _ eq_refl); [discriminate|reflexivity].
Defined.

End PassiveRun.
